(** * Shop-Track: inventory consistency, alert lifecycle and sale recording

    A shallow embedding of the service layer of the Shop-Track point-of-sale
    platform (app/services and app/api/v1/endpoints), with the properties
    of its specification stated and settled against it.

    Conventions of the embedding:
    - Python [int] is [Z]; [float] amounts are exact rationals [Q] (no
      property below depends on rounding); [datetime] values are seconds
      on a [Z] time line and [datetime.utcnow()] is an explicit argument.
    - Tables addressed by primary key (products, alerts, sales) are
      [gmap Z row]; tables that are scanned or appended to (inventory
      levels, stock movements, sale items) are lists in primary-key order.
    - A database session is a working copy of the tables; [db.commit()]
      copies it to the committed state.
    - Python exceptions are the values of [PyExc]; code that reads or
      writes the session or the cache and may raise runs in the monad [M]
      (state and exceptions), and the state reached when an exception is
      raised is kept, as in Python. *)

From Stdlib Require Import ZArith QArith Lia.
From stdpp Require Import gmap strings list fin_maps sorting pretty.

Local Open Scope Z_scope.

(** ** Exceptions and the error monad *)

Inductive PyExc : Type :=
| ValueError_no_items                       (* "Sale must contain at least one item" *)
| ValueError_not_found_or_not_tracked (product_id : Z)
| ValueError_insufficient_stock (product_id : Z)
| ValueError_product_not_found (product_id : Z)
| ValueError_invalid_enum (value : string)  (* Enum(value) on an unknown value *)
| NameError (name : string)                 (* "name '...' is not defined" *)
| OverflowError                             (* date arithmetic out of range *)
| DatabaseError (what : string).            (* a statement the server rejects *)

Inductive result (A : Type) : Type :=
| Ok (a : A)
| Raise (e : PyExc).
Arguments Ok {A} a.
Arguments Raise {A} e.

#[global] Instance result_ret : MRet result := fun A a => Ok a.
#[global] Instance result_bind : MBind result := fun A B k r =>
  match r with
  | Ok a => k a
  | Raise e => Raise e
  end.

(** ** app/models *)

Inductive AlertType := LOW_STOCK | OUT_OF_STOCK | RUSH_HOUR | HIGH_QUEUE | SYSTEM_ERROR | MAINTENANCE.
Inductive AlertSeverity := LOW | MEDIUM | HIGH | CRITICAL.
Inductive AlertStatus := ACTIVE | ACKNOWLEDGED | RESOLVED | DISMISSED.
Inductive StockMovementType := PURCHASE | SALE | ADJUSTMENT | RETURN | DAMAGED | EXPIRED.
Inductive PaymentMethod := CASH | CARD | MOBILE | OTHER.

Definition AlertStatus_eqb (a b : AlertStatus) : bool :=
  match a, b with
  | ACTIVE, ACTIVE | ACKNOWLEDGED, ACKNOWLEDGED
  | RESOLVED, RESOLVED | DISMISSED, DISMISSED => true
  | _, _ => false
  end.

Definition AlertType_eqb (a b : AlertType) : bool :=
  match a, b with
  | LOW_STOCK, LOW_STOCK | OUT_OF_STOCK, OUT_OF_STOCK | RUSH_HOUR, RUSH_HOUR
  | HIGH_QUEUE, HIGH_QUEUE | SYSTEM_ERROR, SYSTEM_ERROR | MAINTENANCE, MAINTENANCE => true
  | _, _ => false
  end.

Definition AlertSeverity_eqb (a b : AlertSeverity) : bool :=
  match a, b with
  | LOW, LOW | MEDIUM, MEDIUM | HIGH, HIGH | CRITICAL, CRITICAL => true
  | _, _ => false
  end.

(** [PaymentMethod(value)]: the enum constructor raises ValueError on a
    string that is no member's value. *)
Definition PaymentMethod_of_value (v : string) : result PaymentMethod :=
  if String.eqb v "cash" then Ok CASH
  else if String.eqb v "card" then Ok CARD
  else if String.eqb v "mobile" then Ok MOBILE
  else if String.eqb v "other" then Ok OTHER
  else Raise (ValueError_invalid_enum v).

Module Product.
(** models/inventory.py, class Product (the key of the table is [id]). *)
Record t := mk {
  sku : string;
  name : string;
  min_stock_level : Z;
  max_stock_level : Z;
  reorder_point : Z;
  is_active : bool;
  is_tracked : bool
}.
End Product.

Module InventoryLevel.
(** models/inventory.py, class InventoryLevel. *)
Record t := mk {
  product_id : Z;
  current_quantity : Z;
  reserved_quantity : Z;
  available_quantity : Z;
  location_id : string
}.
Definition set_current_quantity (v : Z) (r : t) : t :=
  mk (product_id r) v (reserved_quantity r) (available_quantity r) (location_id r).
Definition set_available_quantity (v : Z) (r : t) : t :=
  mk (product_id r) (current_quantity r) (reserved_quantity r) v (location_id r).
End InventoryLevel.

Module StockMovement.
(** models/inventory.py, class StockMovement. *)
Record t := mk {
  product_id : Z;
  movement_type : StockMovementType;
  quantity : Z;
  previous_quantity : Z;
  new_quantity : Z;
  reference_id : option string;
  reference_type : option string;
  user_id : option string;
  notes : option string;
  location_id : string;
  created_at : Z
}.
End StockMovement.

Module Alert.
(** models/alerts.py, class Alert (the key of the table is [id]). *)
Record t := mk {
  alert_type : AlertType;
  severity : AlertSeverity;
  status : AlertStatus;
  title : string;
  product_id : option Z;
  sale_id : option Z;
  created_by : option string;
  acknowledged_by : option string;
  resolved_by : option string;
  created_at : Z;
  acknowledged_at : option Z;
  resolved_at : option Z;
  expires_at : option Z;
  is_expired : bool
}.
Definition set_status (v : AlertStatus) (a : t) : t :=
  mk (alert_type a) (severity a) v (title a) (product_id a) (sale_id a)
     (created_by a) (acknowledged_by a) (resolved_by a) (created_at a)
     (acknowledged_at a) (resolved_at a) (expires_at a) (is_expired a).
Definition set_acknowledged_by (v : option string) (a : t) : t :=
  mk (alert_type a) (severity a) (status a) (title a) (product_id a) (sale_id a)
     (created_by a) v (resolved_by a) (created_at a)
     (acknowledged_at a) (resolved_at a) (expires_at a) (is_expired a).
Definition set_acknowledged_at (v : option Z) (a : t) : t :=
  mk (alert_type a) (severity a) (status a) (title a) (product_id a) (sale_id a)
     (created_by a) (acknowledged_by a) (resolved_by a) (created_at a)
     v (resolved_at a) (expires_at a) (is_expired a).
Definition set_resolved_by (v : option string) (a : t) : t :=
  mk (alert_type a) (severity a) (status a) (title a) (product_id a) (sale_id a)
     (created_by a) (acknowledged_by a) v (created_at a)
     (acknowledged_at a) (resolved_at a) (expires_at a) (is_expired a).
Definition set_resolved_at (v : option Z) (a : t) : t :=
  mk (alert_type a) (severity a) (status a) (title a) (product_id a) (sale_id a)
     (created_by a) (acknowledged_by a) (resolved_by a) (created_at a)
     (acknowledged_at a) v (expires_at a) (is_expired a).
Definition set_is_expired (v : bool) (a : t) : t :=
  mk (alert_type a) (severity a) (status a) (title a) (product_id a) (sale_id a)
     (created_by a) (acknowledged_by a) (resolved_by a) (created_at a)
     (acknowledged_at a) (resolved_at a) (expires_at a) v.

(** The property [is_active]; [now] is [datetime.utcnow()]. *)
Definition is_active (now : Z) (a : t) : bool :=
  match status a with
  | ACTIVE =>
      if is_expired a then false
      else match expires_at a with
           | Some e => negb (e <? now)
           | None => true
           end
  | _ => false
  end.
End Alert.

Module Sale.
(** models/sales.py, class Sale (the key of the table is [id]). *)
Record t := mk {
  transaction_id : string;
  cashier_id : string;
  customer_id : option string;
  payment_method : PaymentMethod;
  subtotal : Q;
  tax_amount : Q;
  discount_amount : Q;
  total_amount : Q;
  created_at : Z;
  completed_at : option Z;
  status : string;
  notes : option string
}.
End Sale.

Module SaleItem.
(** models/sales.py, class SaleItem. *)
Record t := mk {
  sale_id : Z;
  product_id : Z;
  product_name : string;
  sku : string;
  quantity : Z;
  unit_price : Q;
  total_price : Q
}.
End SaleItem.

(** ** The database and the cache *)

(** The tables as one session sees them. *)
Record Db := mkDb {
  products : gmap Z Product.t;
  inventory_levels : list InventoryLevel.t;
  stock_movements : list StockMovement.t;
  alerts : gmap Z Alert.t;
  sales : gmap Z Sale.t;
  sale_items : list SaleItem.t
}.

Definition set_inventory_levels (v : list InventoryLevel.t) (d : Db) : Db :=
  mkDb (products d) v (stock_movements d) (alerts d) (sales d) (sale_items d).
Definition set_stock_movements (v : list StockMovement.t) (d : Db) : Db :=
  mkDb (products d) (inventory_levels d) v (alerts d) (sales d) (sale_items d).
Definition set_alerts (v : gmap Z Alert.t) (d : Db) : Db :=
  mkDb (products d) (inventory_levels d) (stock_movements d) v (sales d) (sale_items d).
Definition set_sales (v : gmap Z Sale.t) (d : Db) : Db :=
  mkDb (products d) (inventory_levels d) (stock_movements d) (alerts d) v (sale_items d).
Definition set_sale_items (v : list SaleItem.t) (d : Db) : Db :=
  mkDb (products d) (inventory_levels d) (stock_movements d) (alerts d) (sales d) v.

(** The primary key a flush assigns to a new row: one above the largest
    key in the table. *)
Definition next_id {A} (m : gmap Z A) : Z :=
  1 + map_fold (fun k _ acc => Z.max k acc) 0 m.

(** core/redis_client.py, the entries the services write through
    [cache_manager.set] and remove through [cache_manager.delete]. *)
Inductive CacheKey :=
| StockKey (product_id : Z)            (* f"stock:{product_id}" *)
| AlertKey (alert_id : Z)              (* f"alert:{alert_id}" *)
| TransactionKey (transaction_id : string).

Inductive CacheValue :=
| StockEntry (current_quantity available_quantity : Z)
| AlertEntry (alert_type : AlertType) (severity : AlertSeverity) (title : string)
| SaleIdEntry (sale_id : Z).

Definition CacheKey_eqb (a b : CacheKey) : bool :=
  match a, b with
  | StockKey x, StockKey y => x =? y
  | AlertKey x, AlertKey y => x =? y
  | TransactionKey x, TransactionKey y => String.eqb x y
  | _, _ => false
  end.

Definition Cache := list (CacheKey * CacheValue).

Definition cache_set (k : CacheKey) (v : CacheValue) (c : Cache) : Cache :=
  (k, v) :: filter (fun e => negb (CacheKey_eqb (fst e) k)) c.

Definition cache_delete (k : CacheKey) (c : Cache) : Cache :=
  filter (fun e => negb (CacheKey_eqb (fst e) k)) c.

(** What outlives a call: the committed tables and the cache. *)
Record World := mkWorld {
  committed : Db;
  cache : Cache
}.

Definition set_committed (v : Db) (w : World) : World := mkWorld v (cache w).
Definition set_cache (v : Cache) (w : World) : World := mkWorld (committed w) v.

(** ** Sessions *)

(** A running [with get_db_context() as db:] block: the world outside and
    the session's working copy of the tables. *)
Record Txn := mkTxn {
  world : World;
  session : Db
}.

Definition M (A : Type) : Type := Txn -> result A * Txn.

#[global] Instance M_ret : MRet M := fun A a t => (Ok a, t).
#[global] Instance M_bind : MBind M := fun A B k m t =>
  match m t with
  | (Ok a, t') => k a t'
  | (Raise e, t') => (Raise e, t')
  end.

Definition raise {A} (e : PyExc) : M A := fun t => (Raise e, t).

(** [try: body except Exception as e: handler]. *)
Definition try_except {A} (body : M A) (handler : PyExc -> M A) : M A := fun t =>
  match body t with
  | (Ok a, t') => (Ok a, t')
  | (Raise e, t') => handler e t'
  end.

Definition get_session : M Db := fun t => (Ok (session t), t).
Definition put_session (d : Db) : M unit := fun t => (Ok (), mkTxn (world t) d).

(** [db.commit()]. *)
Definition commit : M unit := fun t =>
  (Ok (), mkTxn (set_committed (session t) (world t)) (session t)).

(** [cache_manager.set] and [cache_manager.delete]; both swallow their own
    exceptions, so neither raises. *)
Definition cache_manager_set (k : CacheKey) (v : CacheValue) : M unit := fun t =>
  (Ok (), mkTxn (set_cache (cache_set k v (cache (world t))) (world t)) (session t)).
Definition cache_manager_delete (k : CacheKey) : M unit := fun t =>
  (Ok (), mkTxn (set_cache (cache_delete k (cache (world t))) (world t)) (session t)).

(** Modelled from the spec: [get_db_context] of app/core/database.py, which
    is not among the sources.  The block runs in a fresh session on the
    committed tables; what the block committed with [db.commit()] stays,
    and the session's uncommitted work is dropped when the block is left,
    by return or by exception (section 7: a failed recording leaves no
    partial application).  An exception raised in the block reaches the
    caller. *)
Definition get_db_context {A} (body : M A) (w : World) : result A * World :=
  let '(r, t) := body (mkTxn w (committed w)) in (r, world t).

(** ** Dates *)

(** [timedelta(days=n)] accepts at most 999999999 days either way. *)
Definition timedelta_days (days : Z) : M Z :=
  if Z.abs days <=? 999999999 then mret (days * 86400) else raise OverflowError.

(** [datetime.min] and [datetime.max] in seconds from 1970-01-01. *)
Definition datetime_min : Z := -62135596800.
Definition datetime_max : Z := 253402300799.

(** [t - delta] on datetimes raises OverflowError outside years 1..9999. *)
Definition datetime_sub (t delta : Z) : M Z :=
  let r := t - delta in
  if (r <? datetime_min) || (datetime_max <? r) then raise OverflowError else mret r.

(** ** app/services/alert_dispatcher.py *)

Module AlertDispatcher.

Definition _get_channels_for_severity (severity : AlertSeverity) : list string :=
  match severity with
  | CRITICAL => ["email"; "sms"; "webhook"; "dashboard"]
  | HIGH => ["email"; "webhook"; "dashboard"]
  | MEDIUM => ["webhook"; "dashboard"]
  | LOW => ["dashboard"]
  end.

(** [create_alert]: the row is added to the caller's session and flushed
    (which assigns its id), dispatched to the channels of its severity
    (log lines only) and cached.  [now] is [datetime.utcnow()]. *)
Definition create_alert (now : Z)
    (alert_type : AlertType) (severity : AlertSeverity) (title : string)
    (product_id sale_id : option Z) (expires_in_hours : Z) : M (Z * Alert.t) :=
  let alert :=
    Alert.mk alert_type severity ACTIVE title product_id sale_id
      (Some "system") None None now None None
      (Some (now + expires_in_hours * 3600)) false in
  db ← get_session;
  let id := next_id (alerts db) in
  put_session (set_alerts (<[id := alert]> (alerts db)) db);;
  cache_manager_set (AlertKey id) (AlertEntry alert_type severity title);;
  mret (id, alert).

Definition active_filter (alert_type : option AlertType)
    (severity : option AlertSeverity) (a : Alert.t) : bool :=
  AlertStatus_eqb (Alert.status a) ACTIVE
  && match alert_type with
     | Some t => AlertType_eqb (Alert.alert_type a) t
     | None => true
     end
  && match severity with
     | Some s => AlertSeverity_eqb (Alert.severity a) s
     | None => true
     end.

(** [order_by(desc(Alert.created_at))]. *)
Definition newer_first (x y : Z * Alert.t) : Prop :=
  Alert.created_at (snd y) <= Alert.created_at (snd x).

#[global] Instance newer_first_dec : RelDecision newer_first.
Proof. intros x y. unfold newer_first. apply Z.le_dec. Defined.

(** [get_active_alerts]: the rows come back keyed by id.  PostgreSQL
    rejects a negative LIMIT, and the handler turns that into []. *)
Definition get_active_alerts (alert_type : option AlertType)
    (severity : option AlertSeverity) (limit : Z) (w : World) : list (Z * Alert.t) :=
  let query : M (list (Z * Alert.t)) :=
    db ← get_session;
    let rows := filter (fun r => active_filter alert_type severity (snd r) = true)
                       (map_to_list (alerts db)) in
    if limit <? 0 then raise (DatabaseError "LIMIT must not be negative")
    else mret (take (Z.to_nat limit) (merge_sort newer_first rows)) in
  match get_db_context query w with
  | (Ok rows, _) => rows
  | (Raise _, _) => []
  end.

(** The three user actions share one shape: look the row up by id, write
    the target status and the user and time fields, commit, drop the
    cache entry. *)
Definition acknowledge_alert (now : Z) (alert_id : Z) (user_id : string) (w : World)
    : bool * World :=
  let block : M bool :=
    db ← get_session;
    match alerts db !! alert_id with
    | None => mret false
    | Some alert =>
        let alert := Alert.set_status ACKNOWLEDGED alert in
        let alert := Alert.set_acknowledged_by (Some user_id) alert in
        let alert := Alert.set_acknowledged_at (Some now) alert in
        put_session (set_alerts (<[alert_id := alert]> (alerts db)) db);;
        commit;;
        cache_manager_delete (AlertKey alert_id);;
        mret true
    end in
  match get_db_context block w with
  | (Ok b, w') => (b, w')
  | (Raise _, w') => (false, w')
  end.

Definition resolve_alert (now : Z) (alert_id : Z) (user_id : string) (w : World)
    : bool * World :=
  let block : M bool :=
    db ← get_session;
    match alerts db !! alert_id with
    | None => mret false
    | Some alert =>
        let alert := Alert.set_status RESOLVED alert in
        let alert := Alert.set_resolved_by (Some user_id) alert in
        let alert := Alert.set_resolved_at (Some now) alert in
        put_session (set_alerts (<[alert_id := alert]> (alerts db)) db);;
        commit;;
        cache_manager_delete (AlertKey alert_id);;
        mret true
    end in
  match get_db_context block w with
  | (Ok b, w') => (b, w')
  | (Raise _, w') => (false, w')
  end.

Definition dismiss_alert (now : Z) (alert_id : Z) (user_id : string) (w : World)
    : bool * World :=
  let block : M bool :=
    db ← get_session;
    match alerts db !! alert_id with
    | None => mret false
    | Some alert =>
        let alert := Alert.set_status DISMISSED alert in
        let alert := Alert.set_acknowledged_by (Some user_id) alert in
        let alert := Alert.set_acknowledged_at (Some now) alert in
        put_session (set_alerts (<[alert_id := alert]> (alerts db)) db);;
        commit;;
        cache_manager_delete (AlertKey alert_id);;
        mret true
    end in
  match get_db_context block w with
  | (Ok b, w') => (b, w')
  | (Raise _, w') => (false, w')
  end.

(** The filter of [cleanup_expired_alerts]:
    [status == ACTIVE and expires_at <= utcnow()] (NULL never matches). *)
Definition cleanup_filter (now : Z) (a : Alert.t) : bool :=
  AlertStatus_eqb (Alert.status a) ACTIVE
  && match Alert.expires_at a with
     | Some t => t <=? now
     | None => false
     end.

(** What [update({Alert.is_expired: True})] under that filter does to one
    row. *)
Definition flag_if_expired (now : Z) (a : Alert.t) : Alert.t :=
  if cleanup_filter now a then Alert.set_is_expired true a else a.

(** [query.filter(...).update({Alert.is_expired: True})] writes the flag
    on the rows the filter matches and returns how many it matched. *)
Definition cleanup_expired_alerts (now : Z) (w : World) : Z * World :=
  let block : M Z :=
    db ← get_session;
    let expired_count :=
      size (filter (fun r : Z * Alert.t => cleanup_filter now (snd r) = true) (alerts db)) in
    put_session (set_alerts (flag_if_expired now <$> alerts db) db);;
    commit;;
    mret (Z.of_nat expired_count) in
  match get_db_context block w with
  | (Ok n, w') => (n, w')
  | (Raise _, w') => (0, w')
  end.

(** The names bound in the module namespace of alert_dispatcher.py: its
    imports (lines 4 to 14), [logger] and the class. *)
Definition module_globals : list string :=
  ["asyncio"; "logging"; "json"; "List"; "Dict"; "Any"; "Optional";
   "datetime"; "timedelta"; "Session"; "and_"; "desc"; "get_db_context";
   "cache_manager"; "Alert"; "AlertType"; "AlertSeverity"; "AlertStatus";
   "logger"; "AlertDispatcher"].

(** The builtins the module refers to. *)
Definition builtins : list string := ["Exception"; "sum"; "str"; "int"; "bool"].

(** A global name is looked up in the module namespace, then in the
    builtins; NameError when it is in neither. *)
Definition load_name (name : string) : M unit :=
  if existsb (String.eqb name) (module_globals ++ builtins) then mret ()
  else raise (NameError name).

Definition AlertType_value (t : AlertType) : string :=
  match t with
  | LOW_STOCK => "low_stock" | OUT_OF_STOCK => "out_of_stock"
  | RUSH_HOUR => "rush_hour" | HIGH_QUEUE => "high_queue"
  | SYSTEM_ERROR => "system_error" | MAINTENANCE => "maintenance"
  end.

Definition AlertSeverity_value (s : AlertSeverity) : string :=
  match s with
  | LOW => "low" | MEDIUM => "medium" | HIGH => "high" | CRITICAL => "critical"
  end.

Inductive StatValue :=
| StatInt (n : Z)
| StatCounts (counts : list (string * Z)).

Definition count_rows (f : Alert.t -> bool) (table : gmap Z Alert.t) : Z :=
  Z.of_nat (size (filter (fun r : Z * Alert.t => f (snd r) = true) table)).

(** [query(column, count(id)).filter(f).group_by(column)]: one row for
    each value of the column that occurs. *)
Definition count_by {E} (values : list E) (eqb : E -> E -> bool)
    (column : Alert.t -> E) (f : Alert.t -> bool) (table : gmap Z Alert.t)
    : list (E * Z) :=
  filter (fun r => 0 < snd r)
    (map (fun v => (v, count_rows (fun a => f a && eqb (column a) v) table)) values).

(** [get_alert_statistics]: the dictionary is an association list in
    insertion order, [{}] is the empty list.  The expressions are
    evaluated in program order, each global name where it is read. *)
Definition get_alert_statistics (now : Z) (days : Z) (w : World)
    : list (string * StatValue) :=
  let block : M (list (string * StatValue)) :=
    load_name "datetime";;
    load_name "timedelta";;
    delta ← timedelta_days days;
    start_date ← datetime_sub now delta;
    db ← get_session;
    let recent a := start_date <=? Alert.created_at a in
    load_name "Alert";;
    load_name "func";;
    let alerts_by_type :=
      count_by [LOW_STOCK; OUT_OF_STOCK; RUSH_HOUR; HIGH_QUEUE; SYSTEM_ERROR; MAINTENANCE]
        AlertType_eqb Alert.alert_type recent (alerts db) in
    load_name "Alert";;
    load_name "func";;
    let alerts_by_severity :=
      count_by [LOW; MEDIUM; HIGH; CRITICAL]
        AlertSeverity_eqb Alert.severity recent (alerts db) in
    load_name "and_";;
    load_name "AlertStatus";;
    let active_alerts :=
      count_rows (fun a => AlertStatus_eqb (Alert.status a) ACTIVE && recent a) (alerts db) in
    let resolved_alerts :=
      count_rows (fun a => AlertStatus_eqb (Alert.status a) RESOLVED && recent a) (alerts db) in
    load_name "sum";;
    mret [("total_alerts", StatInt (foldr Z.add 0 (map snd alerts_by_type)));
          ("active_alerts", StatInt active_alerts);
          ("resolved_alerts", StatInt resolved_alerts);
          ("by_type", StatCounts (map (fun r => (AlertType_value (fst r), snd r)) alerts_by_type));
          ("by_severity",
           StatCounts (map (fun r => (AlertSeverity_value (fst r), snd r)) alerts_by_severity))] in
  match get_db_context (load_name "get_db_context";; block) w with
  | (Ok stats, _) => stats
  | (Raise _, _) => []
  end.

(** [_setup_channels]: the keys of [self._alert_channels]. *)
Definition _setup_channels : list string := ["email"; "sms"; "webhook"; "dashboard"].

(** [_dispatch_alert]: the channels whose sender is called, in order; a
    channel that is not configured is skipped, and the senders only log. *)
Definition _dispatch_alert (alert : Alert.t) : list string :=
  filter (fun channel_name => channel_name ∈ _setup_channels)
         (_get_channels_for_severity (Alert.severity alert)).
End AlertDispatcher.

(** ** app/services/inventory_monitor.py *)

Module InventoryMonitor.

(** The dictionary [update_stock_level] returns. *)
Record UpdateResult := mkUpdateResult {
  product_id : Z;
  product_name : string;
  previous_quantity : Z;
  new_quantity : Z;
  available_quantity : Z;
  movement_type : StockMovementType;
  quantity_changed : Z
}.

(** [InventoryLevel.product_id == product_id and
     InventoryLevel.location_id == location_id]. *)
Definition level_filter (product_id : Z) (location_id : string)
    (level : InventoryLevel.t) : Prop :=
  InventoryLevel.product_id level = product_id
  /\ InventoryLevel.location_id level = location_id.

#[global] Instance level_filter_dec product_id location_id level :
  Decision (level_filter product_id location_id level).
Proof. unfold level_filter. apply _. Defined.

(** Lines 63 to 80: the first row for the product and location, created
    with zero quantities when there is none.  The row is handed on with
    its position in the table, where the later writes to it land. *)
Definition get_or_create_level (product_id : Z) (location_id : string)
    : M (nat * InventoryLevel.t) :=
  db ← get_session;
  match list_find (level_filter product_id location_id) (inventory_levels db) with
  | Some (i, level) => mret (i, level)
  | None =>
      let level := InventoryLevel.mk product_id 0 0 0 location_id in
      put_session (set_inventory_levels (inventory_levels db ++ [level]) db);;
      mret (length (inventory_levels db), level)
  end.

(** Lines 86 to 94, the three assignments in order. *)
Definition update_quantities (quantity : Z) (level : InventoryLevel.t) : InventoryLevel.t :=
  let level :=
    InventoryLevel.set_current_quantity
      (InventoryLevel.current_quantity level + quantity) level in
  let level :=
    InventoryLevel.set_available_quantity
      (InventoryLevel.current_quantity level - InventoryLevel.reserved_quantity level)
      level in
  if InventoryLevel.current_quantity level <? 0
  then InventoryLevel.set_available_quantity 0 (InventoryLevel.set_current_quantity 0 level)
  else level.

Definition _update_stock_cache (product_id : Z) (inventory : InventoryLevel.t) : M unit :=
  cache_manager_set (StockKey product_id)
    (StockEntry (InventoryLevel.current_quantity inventory)
                (InventoryLevel.available_quantity inventory)).

(** The branch [_check_stock_alerts] takes: type, severity and title of
    the alert to create, if any. *)
Definition stock_alert (product : Product.t) (available previous_available : Z)
    : option (AlertType * AlertSeverity * string) :=
  if (available <=? 0) && (0 <? previous_available) then
    Some (OUT_OF_STOCK, HIGH, "Product Out of Stock: " +:+ Product.name product)
  else if (available <=? Product.min_stock_level product)
          && (Product.min_stock_level product <? previous_available) then
    Some (LOW_STOCK, MEDIUM, "Low Stock Alert: " +:+ Product.name product)
  else if (available <=? Product.reorder_point product)
          && (Product.reorder_point product <? previous_available) then
    Some (LOW_STOCK, LOW, "Reorder Point Reached: " +:+ Product.name product)
  else None.

(** [_check_stock_alerts]: an exception of [create_alert] is logged and
    dropped. *)
Definition _check_stock_alerts (now : Z) (product_id : Z) (product : Product.t)
    (inventory : InventoryLevel.t) (previous_available : Z) : M unit :=
  try_except
    (match stock_alert product (InventoryLevel.available_quantity inventory)
             previous_available with
     | Some (alert_type, severity, title) =>
         AlertDispatcher.create_alert now alert_type severity title
           (Some product_id) None 24;;
         mret ()
     | None => mret ()
     end)
    (fun _ => mret ()).

Definition update_stock_level (now : Z) (product_id quantity : Z)
    (movement_type : StockMovementType)
    (reference_id reference_type user_id notes : option string)
    (location_id : string) : M UpdateResult :=
  db ← get_session;
  match products db !! product_id with
  | None => raise (ValueError_product_not_found product_id)
  | Some product =>
      '(i, inventory_level) ← get_or_create_level product_id location_id;
      let previous_quantity := InventoryLevel.current_quantity inventory_level in
      let previous_available := InventoryLevel.available_quantity inventory_level in
      let inventory_level := update_quantities quantity inventory_level in
      db ← get_session;
      put_session
        (set_inventory_levels (<[i := inventory_level]> (inventory_levels db)) db);;
      db ← get_session;
      put_session
        (set_stock_movements
           (stock_movements db ++
            [StockMovement.mk product_id movement_type quantity previous_quantity
               (InventoryLevel.current_quantity inventory_level)
               reference_id reference_type user_id notes location_id now]) db);;
      _update_stock_cache product_id inventory_level;;
      _check_stock_alerts now product_id product inventory_level previous_available;;
      mret (mkUpdateResult product_id (Product.name product) previous_quantity
              (InventoryLevel.current_quantity inventory_level)
              (InventoryLevel.available_quantity inventory_level)
              movement_type quantity)
  end.

(** [_get_stock_status]. *)
Definition _get_stock_status (product : Product.t) (inventory : InventoryLevel.t) : string :=
  let available := InventoryLevel.available_quantity inventory in
  if available <=? 0 then "out_of_stock"
  else if available <=? Product.min_stock_level product then "low_stock"
  else if available <=? Product.reorder_point product then "reorder_needed"
  else if Product.max_stock_level product <=? available then "overstocked"
  else "normal".

(** [order_by(desc(StockMovement.created_at))]. *)
Definition newer_first (x y : StockMovement.t) : Prop :=
  StockMovement.created_at y <= StockMovement.created_at x.

#[global] Instance newer_first_dec : RelDecision newer_first.
Proof. intros x y. unfold newer_first. apply Z.le_dec. Defined.

(** [get_stock_movements] as the endpoint calls it (no date bounds).
    [if product_id:] is false for [None] and for 0.  The movements join
    their product, so rows of unknown products drop out. *)
Definition get_stock_movements (product_id : option Z) (limit : Z) (w : World)
    : result (list StockMovement.t) * World :=
  get_db_context
    (db ← get_session;
     let joined :=
       filter (fun m => is_Some (products db !! StockMovement.product_id m))
              (stock_movements db) in
     let rows :=
       match product_id with
       | Some p => if p =? 0 then joined
                   else filter (fun m => StockMovement.product_id m = p) joined
       | None => joined
       end in
     if limit <? 0 then raise (DatabaseError "LIMIT must not be negative")
     else mret (take (Z.to_nat limit) (merge_sort newer_first rows)))
    w.

Module LowStock.
(** One dictionary of [get_low_stock_products].  [days_of_stock] is the
    coroutine of [_calculate_days_of_stock(product.id, available)], which
    the comprehension never awaits: it is kept as its two arguments. *)
Record t := mk {
  product_id : Z;
  sku : string;
  name : string;
  current_quantity : Z;
  min_stock_level : Z;
  reorder_point : Z;
  days_of_stock : Z * Z
}.
End LowStock.

(** [db.query(Product, InventoryLevel).join(InventoryLevel)]: every
    inventory row with its product, in the order of the rows. *)
Definition product_levels (db : Db) : list (Z * Product.t * InventoryLevel.t) :=
  omap (fun level =>
          (fun product => (InventoryLevel.product_id level, product, level))
          <$> products db !! InventoryLevel.product_id level)
       (inventory_levels db).

(** The bound of [get_low_stock_products] for one product:
    [if threshold:] is false for [None] and for 0. *)
Definition low_stock_bound (threshold : option Z) (product : Product.t) : Z :=
  match threshold with
  | Some t => if t =? 0 then Product.min_stock_level product else t
  | None => Product.min_stock_level product
  end.

Definition get_low_stock_products (threshold : option Z) (w : World)
    : result (list LowStock.t) * World :=
  get_db_context
    (db ← get_session;
     let results :=
       filter (fun r : Z * Product.t * InventoryLevel.t =>
                 InventoryLevel.available_quantity (snd r)
                 <= low_stock_bound threshold (snd (fst r))
                 /\ Product.is_tracked (snd (fst r)) = true)
              (product_levels db) in
     mret (map (fun r : Z * Product.t * InventoryLevel.t =>
                  let '(id, product, inventory) := r in
                  LowStock.mk id (Product.sku product) (Product.name product)
                    (InventoryLevel.available_quantity inventory)
                    (Product.min_stock_level product) (Product.reorder_point product)
                    (id, InventoryLevel.available_quantity inventory))
               results))
    w.
End InventoryMonitor.

(** ** app/services/sales_logger.py *)

Module SalesLogger.

(** One entry of [sale_data['items']]. *)
Record ItemData := mkItemData {
  product_id : Z;
  quantity : Z;
  unit_price : Q
}.

(** The [sale_data] dictionary, with every key the function reads by
    subscript present (the request schema of the checkout endpoint
    requires them); the keys read with [.get] are optional. *)
Record SaleData := mkSaleData {
  cashier_id : string;
  customer_id : option string;
  payment_method : string;
  items : list ItemData;
  subtotal : Q;
  tax_amount : option Q;
  discount_amount : option Q;
  total_amount : Q;
  notes : option string
}.

(** The dictionary [record_sale] returns. *)
Record SaleResult := mkSaleResult {
  transaction_id : string;
  sale_id : Z;
  status : string;
  result_total_amount : Q;
  items_count : Z
}.

(** [product.inventory_levels], the rows of the product in key order. *)
Definition levels_of (product_id : Z) (db : Db) : list InventoryLevel.t :=
  filter (fun level => InventoryLevel.product_id level = product_id) (inventory_levels db).

(** The loop of [_validate_inventory]. *)
Fixpoint validate_items (db : Db) (items : list ItemData) : M unit :=
  match items with
  | [] => mret ()
  | item :: rest =>
      match products db !! product_id item with
      | Some product =>
          if Product.is_tracked product then
            match levels_of (product_id item) db with
            | first :: _ =>
                if InventoryLevel.available_quantity first <? quantity item
                then raise (ValueError_insufficient_stock (product_id item))
                else validate_items db rest
            | [] => validate_items db rest
            end
          else raise (ValueError_not_found_or_not_tracked (product_id item))
      | None => raise (ValueError_not_found_or_not_tracked (product_id item))
      end
  end.

Definition _validate_inventory (items : list ItemData) (w : World) : result unit * World :=
  get_db_context (db ← get_session; validate_items db items) w.

Definition _cache_transaction (transaction_id : string) (sale_id : Z) : M unit :=
  cache_manager_set (TransactionKey transaction_id) (SaleIdEntry sale_id).

(** The row built for one item (lines 86 to 94). *)
Definition sale_item_of (sale_id : Z) (product : Product.t) (item : ItemData) : SaleItem.t :=
  SaleItem.mk sale_id (product_id item) (Product.name product) (Product.sku product)
    (quantity item) (unit_price item) (inject_Z (quantity item) * unit_price item)%Q.

(** The loop of lines 80 to 106; [created] is the local list
    [sale_items] of the rows created so far. *)
Fixpoint sell_items (now : Z) (sale_id : Z) (items : list ItemData)
    (created : list SaleItem.t) : M (list SaleItem.t) :=
  match items with
  | [] => mret created
  | item_data :: rest =>
      db ← get_session;
      match products db !! product_id item_data with
      | None => raise (ValueError_product_not_found (product_id item_data))
      | Some product =>
          let sale_item := sale_item_of sale_id product item_data in
          put_session (set_sale_items (sale_items db ++ [sale_item]) db);;
          InventoryMonitor.update_stock_level now (product_id item_data)
            (- quantity item_data) SALE (Some (pretty sale_id)) (Some "sale")
            None None "main";;
          sell_items now sale_id rest (created ++ [sale_item])
      end
  end.

(** The Sale row of lines 62 to 73. *)
Definition sale_of (now : Z) (transaction_id : string) (sale_data : SaleData)
    (payment : PaymentMethod) : Sale.t :=
  Sale.mk transaction_id (cashier_id sale_data) (customer_id sale_data) payment
    (subtotal sale_data) (default 0%Q (tax_amount sale_data))
    (default 0%Q (discount_amount sale_data)) (total_amount sale_data)
    now (Some now) "completed" (notes sale_data).

(** The body of the [with get_db_context() as db:] block of
    [record_sale], lines 61 to 124. *)
Definition record_sale_block (now : Z) (transaction_id : string) (sale_data : SaleData)
    : M SaleResult :=
  payment ← (fun t => (PaymentMethod_of_value (payment_method sale_data), t));
  let sale := sale_of now transaction_id sale_data payment in
  db ← get_session;
  let id := next_id (sales db) in
  put_session (set_sales (<[id := sale]> (sales db)) db);;
  created ← sell_items now id (items sale_data) [];
  commit;;
  _cache_transaction transaction_id id;;
  mret (mkSaleResult transaction_id id "completed" (Sale.total_amount sale)
          (Z.of_nat (length created))).

(** [record_sale]; [transaction_id] is the identifier line 49 draws. *)
Definition record_sale (now : Z) (transaction_id : string) (sale_data : SaleData)
    (w : World) : result SaleResult * World :=
  match items sale_data with
  | [] => (Raise ValueError_no_items, w)
  | _ :: _ =>
      match _validate_inventory (items sale_data) w with
      | (Raise e, w') => (Raise e, w')
      | (Ok _, w') => get_db_context (record_sale_block now transaction_id sale_data) w'
      end
  end.

(** [order_by(Sale.created_at.desc())]. *)
Definition newer_first (x y : Z * Sale.t) : Prop :=
  Sale.created_at (snd y) <= Sale.created_at (snd x).

#[global] Instance newer_first_dec : RelDecision newer_first.
Proof. intros x y. unfold newer_first. apply Z.le_dec. Defined.

Definition get_recent_sales (limit : Z) (w : World) : result (list (Z * Sale.t)) * World :=
  get_db_context
    (db ← get_session;
     let rows := filter (fun r => Sale.status (snd r) = "completed")
                        (map_to_list (sales db)) in
     if limit <? 0 then raise (DatabaseError "LIMIT must not be negative")
     else mret (take (Z.to_nat limit) (merge_sort newer_first rows)))
    w.

(** [SalesLogger.__init__]: the attribute [_transaction_cache], an empty
    dict from keys to sale ids.  No method of the class assigns to it or
    to one of its keys ([_cache_transaction] writes to the cache manager). *)
Definition _transaction_cache_init : gmap string Z := ∅.
End SalesLogger.

(** ** app/services/rush_predictor.py *)

Module RushPredictor.

(** One dictionary of [_get_historical_sales_data]. *)
Record SaleRow := mkSaleRow {
  created_at : Z;
  total_amount : Q;
  items_count : Z;
  payment_method : PaymentMethod
}.

(** [order_by(Sale.created_at)]. *)
Definition older_first (x y : Z * Sale.t) : Prop :=
  Sale.created_at (snd x) <= Sale.created_at (snd y).

#[global] Instance older_first_dec : RelDecision older_first.
Proof. intros x y. unfold older_first. apply Z.le_dec. Defined.

(** [_get_historical_sales_data]: the completed sales of the last 90
    days, oldest first. *)
Definition _get_historical_sales_data (now : Z) (w : World) : result (list SaleRow) * World :=
  get_db_context
    (delta ← timedelta_days 90;
     start_date ← datetime_sub now delta;
     db ← get_session;
     let rows :=
       filter (fun r => start_date <= Sale.created_at (snd r)
                        /\ Sale.status (snd r) = "completed")
              (map_to_list (sales db)) in
     mret (map (fun r =>
                  mkSaleRow (Sale.created_at (snd r)) (Sale.total_amount (snd r))
                    (Z.of_nat (length (filter (fun i => SaleItem.sale_id i = fst r)
                                              (sale_items db))))
                    (Sale.payment_method (snd r)))
               (merge_sort older_first rows)))
    w.

(** The value of one key of [hourly_sales]:
    total_amount, transaction_count, items_count. *)
Definition Bucket : Type := Q * Z * Z.

(** [hourly_sales[hour_key]] updated with one sale; a new key goes to the
    end, as in a Python dict. *)
Fixpoint add_sale (hour_key : Z) (sale : SaleRow) (hourly_sales : list (Z * Bucket))
    : list (Z * Bucket) :=
  match hourly_sales with
  | [] => [(hour_key, ((0 + total_amount sale)%Q, 0 + 1, 0 + items_count sale))]
  | (k, (amount, count, n_items)) :: rest =>
      if k =? hour_key
      then (k, ((amount + total_amount sale)%Q, count + 1, n_items + items_count sale)) :: rest
      else (k, (amount, count, n_items)) :: add_sale hour_key sale rest
  end.

(** [datetime.replace(minute=0, second=0, microsecond=0)], [.hour] and
    [.weekday()] (Monday is 0; 1970-01-01 was a Thursday). *)
Definition hour_floor (t : Z) : Z := t - t mod 3600.
Definition hour_of (t : Z) : Z := (t / 3600) mod 24.
Definition weekday_of (t : Z) : Z := (t / 86400 + 3) mod 7.

Definition feature_vector (hour : Z) (data : Bucket) : list Q :=
  let '(total, transaction_count, n_items) := data in
  let hour_of_day := hour_of hour in
  let day_of_week := weekday_of hour in
  let is_weekend := if 5 <=? day_of_week then 1 else 0 in
  let is_business_hour := if (9 <=? hour_of_day) && (hour_of_day <=? 17) then 1 else 0 in
  let avg_transaction_value :=
    if 0 <? transaction_count then (total / inject_Z transaction_count)%Q else 0%Q in
  [inject_Z hour_of_day; inject_Z day_of_week; inject_Z is_weekend;
   inject_Z is_business_hour; total; inject_Z transaction_count;
   inject_Z n_items; avg_transaction_value].

Definition _prepare_training_data (sales_data : list SaleRow) : list (list Q) * list Q :=
  let hourly_sales :=
    foldl (fun acc sale => add_sale (hour_floor (created_at sale)) sale acc) [] sales_data in
  (map (fun kv => feature_vector (fst kv) (snd kv)) hourly_sales,
   map (fun kv => inject_Z (snd (fst (snd kv)))) hourly_sales).

Section Forecaster.

(** The regression library is a parameter: the fitted forest, the fitted
    scaler and a prediction record. *)
Context {Model Scaler Prediction : Type}.

(** The fields of [self] the service assigns. *)
Record Predictor := mkPredictor {
  rush_model : option Model;
  scaler : option Scaler;
  model_version : string
}.

(** [RushPredictor.__init__] when no saved model can be loaded: the
    training coroutine is created and never awaited, so the fields keep
    their initial values. *)
Definition init : Predictor := mkPredictor None None "1.0".

(** Lines 72 to 97: split, scale, fit, evaluate and save.  It may raise
    anywhere, with the fields it had assigned by then. *)
Variable fit : list (list Q) -> list Q -> Predictor -> result unit * Predictor.

(** Lines 208 to 239 for one hour: features, scaling, the forest's
    output, confidence, storing the prediction and raising the rush
    alert.  [None] is the [continue] taken on an empty feature vector. *)
Variable predict_hour : Model -> option Scaler -> Z -> World -> result (option Prediction) * World.

(** [_train_model]: every exception is logged and dropped. *)
Definition _train_model (now : Z) (w : World) (self : Predictor) : Predictor :=
  match _get_historical_sales_data now w with
  | (Raise _, _) => self
  | (Ok sales_data, _) =>
      if (length sales_data <? 100)%nat then self
      else
        let '(features, targets) := _prepare_training_data sales_data in
        if (length features =? 0)%nat then self
        else snd (fit features targets self)
  end.


(** The loop of [predict_rush_hours] over the prediction times. *)
Fixpoint predict_loop (model : Model) (sc : option Scaler) (times : list Z) (w : World)
    : result (list Prediction) * World :=
  match times with
  | [] => (Ok [], w)
  | prediction_time :: rest =>
      match predict_hour model sc prediction_time w with
      | (Raise e, w') => (Raise e, w')
      | (Ok p, w') =>
          match predict_loop model sc rest w' with
          | (Ok ps, w'') => (Ok (option_list p ++ ps), w'')
          | (Raise e, w'') => (Raise e, w'')
          end
      end
  end.

(** [predict_rush_hours]: [range(hours_ahead)] is empty for a count that
    is not positive.  A fitted forest is true as a condition. *)
Definition predict_rush_hours (self : Predictor) (hours_ahead : Z) (now : Z) (w : World)
    : list Prediction * World :=
  match rush_model self with
  | None => ([], w)
  | Some model =>
      match predict_loop model (scaler self)
              (map (fun i => now + i * 3600) (seqZ 0 hours_ahead)) w with
      | (Ok predictions, w') => (predictions, w')
      | (Raise _, w') => ([], w')
      end
  end.

End Forecaster.

End RushPredictor.

(** ** app/api/v1/endpoints *)

Module Endpoints.

(** What a handler gives back: the response body or an HTTPException. *)
Inductive Http (A : Type) : Type :=
| Response (body : A)
| HTTPException (status_code : Z).
Arguments Response {A} body.
Arguments HTTPException {A} status_code.

Definition AlertType_of_value (v : string) : option AlertType :=
  if String.eqb v "low_stock" then Some LOW_STOCK
  else if String.eqb v "out_of_stock" then Some OUT_OF_STOCK
  else if String.eqb v "rush_hour" then Some RUSH_HOUR
  else if String.eqb v "high_queue" then Some HIGH_QUEUE
  else if String.eqb v "system_error" then Some SYSTEM_ERROR
  else if String.eqb v "maintenance" then Some MAINTENANCE
  else None.

Definition AlertSeverity_of_value (v : string) : option AlertSeverity :=
  if String.eqb v "low" then Some LOW
  else if String.eqb v "medium" then Some MEDIUM
  else if String.eqb v "high" then Some HIGH
  else if String.eqb v "critical" then Some CRITICAL
  else None.

(** The query-string filter of [get_active_alerts]: absent and empty
    strings are skipped, an unknown value is a 400. *)
Definition parse_filter {E} (of_value : string -> option E) (v : option string)
    : Http (option E) :=
  match v with
  | None => Response None
  | Some s =>
      if String.eqb s "" then Response None
      else match of_value s with
           | Some e => Response (Some e)
           | None => HTTPException 400
           end
  end.

(** alerts.py, GET /active: the body is the alerts and their count. *)
Definition get_active_alerts (alert_type severity : option string) (limit : Z) (w : World)
    : Http (list (Z * Alert.t) * Z) :=
  match parse_filter AlertType_of_value alert_type with
  | HTTPException c => HTTPException c
  | Response alert_type_enum =>
      match parse_filter AlertSeverity_of_value severity with
      | HTTPException c => HTTPException c
      | Response severity_enum =>
          let alerts :=
            AlertDispatcher.get_active_alerts alert_type_enum severity_enum limit w in
          Response (alerts, Z.of_nat (length alerts))
      end
  end.

(** alerts.py, GET /statistics: the body is period_days and statistics. *)
Definition get_alert_statistics (now : Z) (days : Z) (w : World)
    : Http (Z * list (string * AlertDispatcher.StatValue)) :=
  let days := if 365 <? days then 365 else days in
  Response (days, AlertDispatcher.get_alert_statistics now days w).

(** inventory.py, GET /movements. *)
Definition get_stock_movements (product_id : option Z) (limit : Z) (w : World)
    : Http (list StockMovement.t * Z) :=
  let limit := if 500 <? limit then 500 else limit in
  match InventoryMonitor.get_stock_movements product_id limit w with
  | (Ok movements, _) => Response (movements, Z.of_nat (length movements))
  | (Raise _, _) => HTTPException 500
  end.

(** sales.py, GET /recent. *)
Definition get_recent_sales (limit : Z) (w : World) : Http (list (Z * Sale.t) * Z) :=
  let limit := if 100 <? limit then 100 else limit in
  match SalesLogger.get_recent_sales limit w with
  | (Ok recent_sales, _) => Response (recent_sales, Z.of_nat (length recent_sales))
  | (Raise _, _) => HTTPException 500
  end.

Definition StockMovementType_of_value (v : string) : option StockMovementType :=
  if String.eqb v "purchase" then Some PURCHASE
  else if String.eqb v "sale" then Some SALE
  else if String.eqb v "adjustment" then Some ADJUSTMENT
  else if String.eqb v "return" then Some RETURN
  else if String.eqb v "damaged" then Some DAMAGED
  else if String.eqb v "expired" then Some EXPIRED
  else None.


(** inventory.py, PUT /update, in the session the request was given: an
    unknown movement type is a 400, any exception of the service a 500. *)
Definition update_stock_level (now : Z) (product_id quantity : Z) (movement_type : string)
    (reference_id reference_type notes : option string) (t : Txn)
    : Http InventoryMonitor.UpdateResult * Txn :=
  match StockMovementType_of_value movement_type with
  | None => (HTTPException 400, t)
  | Some movement_type =>
      match InventoryMonitor.update_stock_level now product_id quantity movement_type
              reference_id reference_type None notes "main" t with
      | (Ok result, t') => (Response result, t')
      | (Raise _, t') => (HTTPException 500, t')
      end
  end.

(** inventory.py, GET /low-stock: the body is the products and their count. *)
Definition get_low_stock_products (threshold : option Z) (w : World)
    : Http (list InventoryMonitor.LowStock.t * Z) :=
  match InventoryMonitor.get_low_stock_products threshold w with
  | (Ok low_stock_products, _) =>
      Response (low_stock_products, Z.of_nat (length low_stock_products))
  | (Raise _, _) => HTTPException 500
  end.

(** The three user actions of alerts.py: false from the service is a 404. *)
Definition acknowledge_alert (now : Z) (alert_id : Z) (user_id : string) (w : World)
    : Http string * World :=
  let '(success, w') := AlertDispatcher.acknowledge_alert now alert_id user_id w in
  (if success then Response "Alert acknowledged successfully" else HTTPException 404, w').

Definition resolve_alert (now : Z) (alert_id : Z) (user_id : string) (w : World)
    : Http string * World :=
  let '(success, w') := AlertDispatcher.resolve_alert now alert_id user_id w in
  (if success then Response "Alert resolved successfully" else HTTPException 404, w').

Definition dismiss_alert (now : Z) (alert_id : Z) (user_id : string) (w : World)
    : Http string * World :=
  let '(success, w') := AlertDispatcher.dismiss_alert now alert_id user_id w in
  (if success then Response "Alert dismissed successfully" else HTTPException 404, w').

(** The module state of sales.py: its [sales_logger], of which the
    handlers read one attribute. *)
Record SalesModule := mkSalesModule {
  _transaction_cache : gmap string Z
}.

Definition sales_logger : SalesModule := mkSalesModule SalesLogger._transaction_cache_init.

(** [except ValueError]: the exceptions that are instances of ValueError. *)
Definition is_ValueError (e : PyExc) : bool :=
  match e with
  | ValueError_no_items | ValueError_not_found_or_not_tracked _
  | ValueError_insufficient_stock _ | ValueError_product_not_found _
  | ValueError_invalid_enum _ => true
  | NameError _ | OverflowError | DatabaseError _ => false
  end.

(** sales.py, POST /checkout: a ValueError is a 400, any other exception
    a 500.  The handler leaves the module state as it is. *)
Definition record_sale (m : SalesModule) (now : Z) (transaction_id : string)
    (sale_data : SalesLogger.SaleData) (w : World)
    : Http SalesLogger.SaleResult * World * SalesModule :=
  match SalesLogger.record_sale now transaction_id sale_data w with
  | (Ok result, w') => (Response result, w', m)
  | (Raise e, w') => (HTTPException (if is_ValueError e then 400 else 500), w', m)
  end.

(** sales.py, GET /transaction/{transaction_id}: the sale and its items.
    [if not cached_sale_id] is true for a missing key and for the id 0. *)
Definition get_transaction (m : SalesModule) (transaction_id : string) (db : Db)
    : Http (Z * Sale.t * list SaleItem.t) :=
  let cache_key := "transaction:" +:+ transaction_id in
  match _transaction_cache m !! cache_key with
  | None => HTTPException 404
  | Some cached_sale_id =>
      if cached_sale_id =? 0 then HTTPException 404
      else
        match filter (fun r : Z * Sale.t => Sale.transaction_id (snd r) = transaction_id)
                     (map_to_list (sales db)) with
        | [] => HTTPException 404
        | (id, sale) :: _ =>
            Response (id, sale, filter (fun i => SaleItem.sale_id i = id) (sale_items db))
        end
  end.

Section Predictions.

Context {Model Scaler Prediction : Type}.
Variable predict_hour : Model -> option Scaler -> Z -> World -> result (option Prediction) * World.

(** predictions.py, GET /rush-hours: the body is predictions,
    hours_ahead and model_version. *)
Definition get_rush_hour_predictions (rush_predictor : @RushPredictor.Predictor Model Scaler)
    (hours_ahead : Z) (now : Z) (w : World)
    : Http (list Prediction * Z * string) * World :=
  let hours_ahead := if 168 <? hours_ahead then 168 else hours_ahead in
  let '(predictions, w') :=
    RushPredictor.predict_rush_hours predict_hour rush_predictor hours_ahead now w in
  (Response (predictions, hours_ahead, RushPredictor.model_version rush_predictor), w').

End Predictions.

End Endpoints.

(** * Vocabulary of the statements *)

(** The inventory row of a product at a location, as the update looks it
    up, and its current quantity (0 when the row is yet to be created). *)
Definition stored_level (product_id : Z) (location_id : string) (db : Db)
    : option InventoryLevel.t :=
  snd <$> list_find (InventoryMonitor.level_filter product_id location_id)
                    (inventory_levels db).

Definition stored_quantity (product_id : Z) (location_id : string) (db : Db) : Z :=
  from_option InventoryLevel.current_quantity 0 (stored_level product_id location_id db).

(** The row [update_stock_level] works on: its position, the row, and the
    table once the row is in it. *)
Definition target_level (product_id : Z) (location_id : string) (db : Db)
    : nat * InventoryLevel.t * list InventoryLevel.t :=
  match list_find (InventoryMonitor.level_filter product_id location_id)
                  (inventory_levels db) with
  | Some (i, level) => (i, level, inventory_levels db)
  | None =>
      (length (inventory_levels db), InventoryLevel.mk product_id 0 0 0 location_id,
       inventory_levels db ++ [InventoryLevel.mk product_id 0 0 0 location_id])
  end.

(** The alert table and the cache after [_check_stock_alerts]. *)
Definition alert_step (now : Z) (product_id : Z) (product : Product.t)
    (available previous_available : Z) (table : gmap Z Alert.t) (c : Cache)
    : gmap Z Alert.t * Cache :=
  match InventoryMonitor.stock_alert product available previous_available with
  | Some (alert_type, severity, title) =>
      (<[next_id table :=
           Alert.mk alert_type severity ACTIVE title (Some product_id) None
             (Some "system") None None now None None (Some (now + 24 * 3600)) false]>
         table,
       cache_set (AlertKey (next_id table)) (AlertEntry alert_type severity title) c)
  | None => (table, c)
  end.

(** The three thresholds of a product, in the order they are tested, and
    the alert each one raises. *)
Inductive Band := OutOfStock | MinStock | ReorderPoint.

#[global] Instance Band_eq_dec : EqDecision Band.
Proof. solve_decision. Defined.

Definition threshold (product : Product.t) (b : Band) : Z :=
  match b with
  | OutOfStock => 0
  | MinStock => Product.min_stock_level product
  | ReorderPoint => Product.reorder_point product
  end.


(** Type and severity of the alert one update raises. *)
Definition decision (product : Product.t) (available previous_available : Z)
    : option (AlertType * AlertSeverity) :=
  fst <$> InventoryMonitor.stock_alert product available previous_available.

(** The decisions along successive available quantities; each update's
    previous value is the value the update before it left. *)
Fixpoint alert_trace (product : Product.t) (previous : Z) (levels : list Z)
    : list (option (AlertType * AlertSeverity)) :=
  match levels with
  | [] => []
  | n :: rest => decision product n previous :: alert_trace product n rest
  end.


(** The two tests of the pre-check of a sale on one item: its product is
    found and tracked; the first inventory row of the product, when there
    is one, has less available than the item asks for. *)
Definition tracked (db : Db) (item : SalesLogger.ItemData) : bool :=
  match products db !! SalesLogger.product_id item with
  | Some product => Product.is_tracked product
  | None => false
  end.

Definition short_of_stock (db : Db) (item : SalesLogger.ItemData) : bool :=
  match SalesLogger.levels_of (SalesLogger.product_id item) db with
  | first :: _ => InventoryLevel.available_quantity first <? SalesLogger.quantity item
  | [] => false
  end.

(** The rows one item of a sale leaves: its SaleItem, with name and sku
    of the product as they are at that moment, and its stock movement. *)
Definition item_row (sale_id : Z) (table : gmap Z Product.t)
    (item : SalesLogger.ItemData) (row : SaleItem.t) : Prop :=
  exists product,
    table !! SalesLogger.product_id item = Some product
    /\ row = SalesLogger.sale_item_of sale_id product item.

Definition item_movement (sale_id : Z) (item : SalesLogger.ItemData)
    (m : StockMovement.t) : Prop :=
  StockMovement.product_id m = SalesLogger.product_id item
  /\ StockMovement.quantity m = - SalesLogger.quantity item
  /\ StockMovement.movement_type m = SALE
  /\ StockMovement.reference_id m = Some (pretty sale_id)
  /\ StockMovement.reference_type m = Some "sale"
  /\ StockMovement.location_id m = "main"
  /\ StockMovement.new_quantity m
     = Z.max 0 (StockMovement.previous_quantity m - SalesLogger.quantity item).

(** The current quantity of one inventory row after the items of a sale
    were taken out of it one by one, none below zero. *)
Definition sold_down (product_id : Z) (location_id : string)
    (items : list SalesLogger.ItemData) (start : Z) : Z :=
  foldl (fun acc item =>
           if decide (SalesLogger.product_id item = product_id /\ location_id = "main")
           then Z.max 0 (acc - SalesLogger.quantity item) else acc)
        start items.

(** A sale in full: between the tables [db] before and [db'] after lie the
    Sale under a new key, one SaleItem and one movement for each item, and
    the inventory taken down by each item. *)
Definition sale_committed (now : Z) (transaction_id : string)
    (sale_data : SalesLogger.SaleData) (db db' : Db) (res : SalesLogger.SaleResult)
    : Prop :=
  let items := SalesLogger.items sale_data in
  let id := SalesLogger.sale_id res in
  exists payment rows movements,
    PaymentMethod_of_value (SalesLogger.payment_method sale_data) = Ok payment
    /\ sales db !! id = None
    /\ sales db' = <[id := SalesLogger.sale_of now transaction_id sale_data payment]> (sales db)
    /\ sale_items db' = sale_items db ++ rows
    /\ Forall2 (item_row id (products db)) items rows
    /\ stock_movements db' = stock_movements db ++ movements
    /\ Forall2 (item_movement id) items movements
    /\ (forall p l, stored_quantity p l db' = sold_down p l items (stored_quantity p l db))
    /\ products db' = products db
    /\ SalesLogger.transaction_id res = transaction_id
    /\ SalesLogger.status res = "completed"
    /\ SalesLogger.items_count res = Z.of_nat (length items).


(** * Example states *)

Definition tea : Product.t := Product.mk "SKU-1" "tea" 5 100 20 true true.
Definition jam : Product.t := Product.mk "SKU-2" "jam" 5 100 20 true true.
Definition rice : Product.t := Product.mk "SKU-3" "rice" 10 100 20 true true.

(** Tea with ten in stock; jam in the catalogue with no inventory row. *)
Definition shop_world : World :=
  mkWorld (mkDb {[ 1 := tea; 2 := jam ]} [InventoryLevel.mk 1 10 0 10 "main"] [] ∅ ∅ []) [].

(** Tea with five in stock and eight of them reserved. *)
Definition reserved_db : Db :=
  mkDb {[ 1 := tea ]} [InventoryLevel.mk 1 5 8 0 "main"] [] ∅ ∅ [].
Definition reserved_session : Txn := mkTxn (mkWorld reserved_db []) reserved_db.

(** Rice (minimum 10, reorder point 20) with fifteen in stock. *)
Definition rice_db : Db :=
  mkDb {[ 3 := rice ]} [InventoryLevel.mk 3 15 0 15 "main"] [] ∅ ∅ [].
Definition rice_session : Txn := mkTxn (mkWorld rice_db []) rice_db.

Definition sale_of_items (items : list SalesLogger.ItemData) : SalesLogger.SaleData :=
  SalesLogger.mkSaleData "cashier_001" None "card" items 46 None None 46 None.

(** A resolved alert and an active one whose expiry has passed. *)
Definition resolved_alert : Alert.t :=
  Alert.mk LOW_STOCK MEDIUM RESOLVED "Low Stock Alert: tea" (Some 1) None
    (Some "system") None (Some "bob") 100 None (Some 200) (Some 86500) false.
Definition overdue_alert : Alert.t :=
  Alert.mk LOW_STOCK MEDIUM ACTIVE "Low Stock Alert: tea" (Some 1) None
    (Some "system") None None 100 None None (Some 500) false.
Definition alerts_world : World :=
  mkWorld (mkDb ∅ [] [] {[ 7 := resolved_alert; 8 := overdue_alert ]} ∅ []) [].

Definition fresh_alert (i : Z) : Alert.t :=
  Alert.mk LOW_STOCK LOW ACTIVE "Reorder Point Reached: tea" (Some 1) None
    (Some "system") None None i None None (Some (i + 86400)) false.

(** 501 active alerts, under the keys 1 to 501. *)
Definition crowded_world : World :=
  mkWorld
    (mkDb ∅ [] [] (list_to_map (map (fun i => (i, fresh_alert i)) (seqZ 1 501))) ∅ [])
    [].


(** * Vocabulary of the further properties *)

(** An inventory row as this code creates and keeps it: nothing reserved,
    a current quantity that is not negative, and the available quantity
    the clamped difference. *)
Definition unreserved (level : InventoryLevel.t) : Prop :=
  InventoryLevel.reserved_quantity level = 0
  /\ 0 <= InventoryLevel.current_quantity level
  /\ InventoryLevel.available_quantity level
     = Z.max 0 (InventoryLevel.current_quantity level
                - InventoryLevel.reserved_quantity level).

(** The last movement of a product at a location. *)
Definition last_movement (product_id : Z) (location_id : string)
    (movements : list StockMovement.t) : option StockMovement.t :=
  last (filter (fun m => StockMovement.product_id m = product_id
                         /\ StockMovement.location_id m = location_id) movements).

(** The ledger agrees with the inventory: where a product has movements at
    a location, the last one ended on the current quantity of its row. *)
Definition ledger_agrees (db : Db) : Prop :=
  forall p l m,
    last_movement p l (stock_movements db) = Some m ->
    stored_quantity p l db = StockMovement.new_quantity m.

(** A merge-sort stack mapped through [g]. *)
Definition map_stack {A B} (g : A -> B) (st : list (option (list A)))
    : list (option (list B)) :=
  fmap (M := list) (fmap (M := option) (fmap (M := list) g)) st.

(** The rank of a severity, LOW lowest. *)
Definition severity_rank (s : AlertSeverity) : Z :=
  match s with LOW => 0 | MEDIUM => 1 | HIGH => 2 | CRITICAL => 3 end.

(** An item the pre-check lets through: its product is found and tracked,
    and the first inventory row of the product, if there is one, has the
    quantity asked for available. *)
Definition sellable (db : Db) (item : SalesLogger.ItemData) : bool :=
  tracked db item && negb (short_of_stock db item).

(** The dictionary [get_low_stock_products] builds for a product and one
    of its inventory rows. *)
Definition low_stock_row (product : Product.t) (level : InventoryLevel.t)
    : InventoryMonitor.LowStock.t :=
  InventoryMonitor.LowStock.mk (InventoryLevel.product_id level)
    (Product.sku product) (Product.name product)
    (InventoryLevel.available_quantity level)
    (Product.min_stock_level product) (Product.reorder_point product)
    (InventoryLevel.product_id level, InventoryLevel.available_quantity level).

(** The movements [get_stock_movements] selects from. *)
Definition movement_rows (product_id : option Z) (db : Db) : list StockMovement.t :=
  let joined :=
    filter (fun m => is_Some (products db !! StockMovement.product_id m))
           (stock_movements db) in
  match product_id with
  | Some p => if p =? 0 then joined
              else filter (fun m => StockMovement.product_id m = p) joined
  | None => joined
  end.

(** A query-string filter as the handlers read it: [if value:] skips an
    absent and an empty string. *)
Definition given_filter (v : option string) : option string :=
  match v with
  | Some s => if String.eqb s "" then None else Some s
  | None => None
  end.

(** The dictionary [hourly_sales] of [_prepare_training_data] after its
    first loop. *)
Definition hourly_sales (sales_data : list RushPredictor.SaleRow)
    : list (Z * RushPredictor.Bucket) :=
  foldl (fun acc sale =>
           RushPredictor.add_sale (RushPredictor.hour_floor (RushPredictor.created_at sale))
             sale acc)
        [] sales_data.

(** The [transaction_count] of one entry of [hourly_sales]. *)
Definition transaction_count (kv : Z * RushPredictor.Bucket) : Z := snd (fst (snd kv)).

(** A feature vector and its target as the second loop builds them. *)
Definition training_row (f : list Q) (y : Q) : Prop :=
  exists hour_of_day day_of_week is_weekend is_business_hour total count n_items average,
    f = [inject_Z hour_of_day; inject_Z day_of_week; inject_Z is_weekend;
         inject_Z is_business_hour; total; inject_Z count; inject_Z n_items; average]
    /\ y = inject_Z count
    /\ 1 <= count
    /\ 0 <= hour_of_day < 24
    /\ 0 <= day_of_week < 7
    /\ is_weekend = (if 5 <=? day_of_week then 1 else 0)
    /\ is_business_hour = (if (9 <=? hour_of_day) && (hour_of_day <=? 17) then 1 else 0).

(** The sales [_get_historical_sales_data] selects: completed, and no
    older than 90 days. *)
Definition recent_sales (now : Z) (db : Db) : list (Z * Sale.t) :=
  filter (fun r : Z * Sale.t => now - 90 * 86400 <= Sale.created_at (snd r)
                                /\ Sale.status (snd r) = "completed")
         (map_to_list (sales db)).

(** A hundred completed card sales, one every ten minutes. *)
Definition busy_world : World :=
  mkWorld
    (mkDb ∅ [] [] ∅
       (list_to_map
          (map (fun i => (i, Sale.mk ("TXN-" +:+ pretty i) "cashier_001" None CARD 46 0 0 46
                               (i * 600) (Some (i * 600)) "completed" None))
               (seqZ 1 100)))
       [])
    [].

(** * Properties *)

Ltac unfold_M :=
  unfold mbind, mret, M_bind, M_ret, raise, try_except, get_session, put_session,
    commit, cache_manager_set, cache_manager_delete in *.

Ltac zbool :=
  repeat match goal with
  | |- context [?a <=? ?b] => destruct (Z.leb_spec a b)
  | |- context [?a <? ?b] => destruct (Z.ltb_spec a b)
  end; cbn.

(** ** Keys *)

Lemma next_id_above {A} (m : gmap Z A) k :
  is_Some (m !! k) -> k < next_id m.
Proof.
  unfold next_id.
  enough (H : forall k, is_Some (m !! k) -> k <= map_fold (fun k _ acc => Z.max k acc) 0 m)
    by (intros Hk; specialize (H k Hk); lia).
  clear k.
  apply (map_fold_weak_ind (fun r m => forall k, is_Some (m !! k) -> k <= r)).
  - intros k [x Hx]. rewrite lookup_empty in Hx. discriminate.
  - intros i x m' r Hi IH k Hk.
    destruct (decide (i = k)) as [->|Hne]; [lia|].
    rewrite lookup_insert_ne in Hk by exact Hne. specialize (IH k Hk). lia.
Qed.

Lemma next_id_fresh {A} (m : gmap Z A) : m !! next_id m = None.
Proof.
  destruct (m !! next_id m) eqn:E; [|reflexivity].
  pose proof (next_id_above m (next_id m) ltac:(eauto)). lia.
Qed.

(** ** Stock updates *)

Import InventoryMonitor.

Lemma update_quantities_current q level :
  InventoryLevel.current_quantity (update_quantities q level)
  = Z.max 0 (InventoryLevel.current_quantity level + q).
Proof.
  unfold update_quantities. cbn.
  destruct (Z.ltb_spec (InventoryLevel.current_quantity level + q) 0); cbn; lia.
Qed.

Lemma update_quantities_available q level :
  InventoryLevel.available_quantity (update_quantities q level)
  = if InventoryLevel.current_quantity level + q <? 0 then 0
    else InventoryLevel.current_quantity level + q - InventoryLevel.reserved_quantity level.
Proof.
  unfold update_quantities. cbn.
  destruct (InventoryLevel.current_quantity level + q <? 0); reflexivity.
Qed.

Lemma update_quantities_reserved q level :
  InventoryLevel.reserved_quantity (update_quantities q level)
  = InventoryLevel.reserved_quantity level.
Proof. unfold update_quantities. cbn. destruct (_ <? 0); reflexivity. Qed.

(** Where the available quantity written by an update is the clamped
    difference, and where it is not: with a reservation that is not
    negative, exactly when the new current quantity was clamped or covers
    the reservation. *)
Lemma update_quantities_invariant_iff q level :
  0 <= InventoryLevel.reserved_quantity level ->
  let level' := update_quantities q level in
  InventoryLevel.available_quantity level'
  = Z.max 0 (InventoryLevel.current_quantity level' - InventoryLevel.reserved_quantity level')
  <-> InventoryLevel.current_quantity level + q < 0
      \/ InventoryLevel.reserved_quantity level <= InventoryLevel.current_quantity level + q.
Proof.
  intros Hr. cbn zeta.
  rewrite update_quantities_available, update_quantities_current, update_quantities_reserved.
  destruct (Z.ltb_spec (InventoryLevel.current_quantity level + q) 0); lia.
Qed.

Lemma update_quantities_key pid loc q level :
  level_filter pid loc level <-> level_filter pid loc (update_quantities q level).
Proof.
  unfold level_filter, update_quantities. cbn.
  destruct (_ <? 0); cbn; tauto.
Qed.

Lemma list_find_insert_same {A} (P : A -> Prop) `{!forall x, Decision (P x)}
    (l : list A) i x x' :
  l !! i = Some x -> ~ P x -> ~ P x' ->
  list_find P (<[i := x']> l) = list_find P l.
Proof.
  revert i. induction l as [|y l IH]; intros i Hi Hx Hx'; [reflexivity|].
  destruct i as [|i]; cbn in *.
  - injection Hi as ->. rewrite !decide_False by assumption. reflexivity.
  - destruct (decide (P y)); [reflexivity|]. f_equal. apply (IH i); assumption.
Qed.

Lemma list_find_snoc_other {A} (P : A -> Prop) `{!forall x, Decision (P x)}
    (l : list A) x :
  ~ P x -> list_find P (l ++ [x]) = list_find P l.
Proof.
  intros Hx. induction l as [|y l IH]; cbn.
  - rewrite decide_False by assumption. reflexivity.
  - destruct (decide (P y)); [reflexivity|]. f_equal. exact IH.
Qed.

Lemma level_filter_other pid loc p l level :
  ~ (p = pid /\ l = loc) -> level_filter pid loc level -> ~ level_filter p l level.
Proof. unfold level_filter. intros Hne [H1 H2] [H3 H4]. apply Hne. split; congruence. Qed.

(** The row an update wrote is the row the next lookup finds. *)
Lemma target_level_stored pid loc db q :
  let '(i, level, levels) := target_level pid loc db in
  level_filter pid loc level
  /\ InventoryLevel.current_quantity level = stored_quantity pid loc db
  /\ stored_level pid loc
       (set_inventory_levels (<[i := update_quantities q level]> levels) db)
     = Some (update_quantities q level).
Proof.
  unfold target_level, stored_quantity, stored_level.
  destruct (list_find (level_filter pid loc) (inventory_levels db)) as [[i level]|] eqn:E; cbn.
  - apply list_find_Some in E as (Hi & HP & Hlt).
    repeat split; try apply HP.
    assert (list_find (level_filter pid loc)
              (<[i := update_quantities q level]> (inventory_levels db))
            = Some (i, update_quantities q level)) as ->; [|reflexivity].
    apply list_find_Some. split; [|split].
    + apply list_lookup_insert_eq. eapply lookup_lt_Some, Hi.
    + apply update_quantities_key, HP.
    + intros j y Hj Hji. rewrite list_lookup_insert_ne in Hj by lia. eauto.
  - apply list_find_None in E.
    repeat split.
    assert (list_find (level_filter pid loc)
              (<[length (inventory_levels db) :=
                   update_quantities q (InventoryLevel.mk pid 0 0 0 loc)]>
                 (inventory_levels db ++ [InventoryLevel.mk pid 0 0 0 loc]))
            = Some (length (inventory_levels db),
                    update_quantities q (InventoryLevel.mk pid 0 0 0 loc))) as ->;
      [|reflexivity].
    apply list_find_Some. split; [|split].
    + apply list_lookup_insert_eq. rewrite length_app. cbn. lia.
    + apply update_quantities_key. split; reflexivity.
    + intros j y Hj Hji. rewrite list_lookup_insert_ne in Hj by lia.
      rewrite lookup_app_l in Hj by lia.
      rewrite Forall_forall in E. apply E. eapply list_elem_of_lookup_2, Hj.
Qed.

(** The rows of other products and locations are found as before. *)
Lemma target_level_other pid loc p l db q :
  ~ (p = pid /\ l = loc) ->
  let '(i, level, levels) := target_level pid loc db in
  stored_level p l (set_inventory_levels (<[i := update_quantities q level]> levels) db)
  = stored_level p l db.
Proof.
  intros Hne. unfold target_level, stored_level.
  destruct (list_find (level_filter pid loc) (inventory_levels db)) as [[i level]|] eqn:E; cbn.
  - apply list_find_Some in E as (Hi & HP & Hlt).
    erewrite list_find_insert_same; [reflexivity|exact Hi| |].
    + eapply level_filter_other; eassumption.
    + eapply level_filter_other; [eassumption|]. apply update_quantities_key, HP.
  - rewrite insert_app_r_alt by lia. rewrite Nat.sub_diag. cbn.
    rewrite list_find_snoc_other; [reflexivity|].
    eapply level_filter_other; [eassumption|].
    apply update_quantities_key. split; reflexivity.
Qed.

(** [update_stock_level] on a product of the catalogue, step by step. *)
Lemma update_stock_level_found now pid q mt r1 r2 u n loc t product :
  products (session t) !! pid = Some product ->
  let '(i, level, levels) := target_level pid loc (session t) in
  let level' := update_quantities q level in
  let c1 :=
    cache_set (StockKey pid)
      (StockEntry (InventoryLevel.current_quantity level')
                  (InventoryLevel.available_quantity level'))
      (cache (world t)) in
  let '(al, c2) :=
    alert_step now pid product (InventoryLevel.available_quantity level')
      (InventoryLevel.available_quantity level) (alerts (session t)) c1 in
  update_stock_level now pid q mt r1 r2 u n loc t =
  (Ok (mkUpdateResult pid (Product.name product) (InventoryLevel.current_quantity level)
         (InventoryLevel.current_quantity level')
         (InventoryLevel.available_quantity level') mt q),
   mkTxn (mkWorld (committed (world t)) c2)
     (mkDb (products (session t)) (<[i := level']> levels)
        (stock_movements (session t) ++
           [StockMovement.mk pid mt q (InventoryLevel.current_quantity level)
              (InventoryLevel.current_quantity level') r1 r2 u n loc now])
        al (sales (session t)) (sale_items (session t)))).
Proof.
  intros Hp. unfold target_level, alert_step, update_stock_level, get_or_create_level,
    _update_stock_cache, _check_stock_alerts, AlertDispatcher.create_alert.
  unfold_M. cbn. rewrite Hp.
  destruct (list_find (level_filter pid loc) (inventory_levels (session t)))
    as [[i level]|] eqn:E; cbn.
  - destruct (stock_alert product _ _) as [[[ty sev] title]|]; cbn; reflexivity.
  - destruct (stock_alert product _ _) as [[[ty sev] title]|]; cbn; reflexivity.
Qed.

Lemma update_stock_level_missing now pid q mt r1 r2 u n loc t :
  products (session t) !! pid = None ->
  update_stock_level now pid q mt r1 r2 u n loc t
  = (Raise (ValueError_product_not_found pid), t).
Proof. intros Hp. unfold update_stock_level. unfold_M. cbn. rewrite Hp. reflexivity. Qed.



(** C1. The available quantity an update stores is not always
    [max 0 (current - reserved)]: on the row of [reserved_session]
    (current 5, reserved 8, available 0) a delivery of one unit stores
    current 6 and available -2, where the clamped difference is 0. *)
Theorem update_stock_level_negative_available :
  exists res t',
    update_stock_level 1000 1 1 PURCHASE None None None None "main" reserved_session
    = (Ok res, t')
    /\ stored_level 1 "main" (session t') = Some (InventoryLevel.mk 1 6 8 (-2) "main")
    /\ available_quantity res = -2
    /\ Z.max 0 (6 - 8) = 0.
Proof. eexists _, _. split; [vm_compute; reflexivity|]. repeat split. Qed.

(** ** Stock alerts *)









(** One alert, LOW_STOCK with severity MEDIUM, at the step from 12 to 9. *)
Example rice_run_trace :
  alert_trace rice 15 [12; 9; 6] = [None; Some (LOW_STOCK, MEDIUM); None].
Proof. reflexivity. Qed.

(** The same run through [update_stock_level]: three sales of three from
    the fifteen of [rice_session] leave one alert in the session. *)
Example three_sales_one_alert :
  let sale := update_stock_level 1000 3 (-3) SALE None None None None "main" in
  exists res t',
    (sale ;; sale ;; sale) rice_session = (Ok res, t')
    /\ available_quantity res = 6
    /\ (fun a => (Alert.alert_type a, Alert.severity a)) <$> (map_to_list (alerts (session t'))).*2
       = [(LOW_STOCK, MEDIUM)].
Proof. cbn zeta. eexists _, _. split; [vm_compute; reflexivity|]. split; reflexivity. Qed.

(** ** Alert lifecycle *)



Lemma cleanup_filter_flagged now a :
  AlertDispatcher.cleanup_filter now (AlertDispatcher.flag_if_expired now a)
  = AlertDispatcher.cleanup_filter now a.
Proof.
  unfold AlertDispatcher.flag_if_expired.
  destruct (AlertDispatcher.cleanup_filter now a) eqn:E; exact E.
Qed.

Lemma flag_if_expired_idem now a :
  AlertDispatcher.flag_if_expired now (AlertDispatcher.flag_if_expired now a)
  = AlertDispatcher.flag_if_expired now a.
Proof.
  unfold AlertDispatcher.flag_if_expired at 1. rewrite cleanup_filter_flagged.
  unfold AlertDispatcher.flag_if_expired.
  destruct (AlertDispatcher.cleanup_filter now a); reflexivity.
Qed.

Lemma flag_if_expired_status now a :
  Alert.status (AlertDispatcher.flag_if_expired now a) = Alert.status a.
Proof.
  unfold AlertDispatcher.flag_if_expired.
  destruct (AlertDispatcher.cleanup_filter now a); reflexivity.
Qed.

Lemma cleanup_expired_alerts_unfold now w :
  AlertDispatcher.cleanup_expired_alerts now w =
  (Z.of_nat
     (size (filter (fun r : Z * Alert.t => AlertDispatcher.cleanup_filter now (snd r) = true)
                   (alerts (committed w)))),
   set_committed
     (set_alerts (AlertDispatcher.flag_if_expired now <$> alerts (committed w))
                 (committed w)) w).
Proof. reflexivity. Qed.

(** C5, as the code has it.  [cleanup_expired_alerts] sets the flag
    [is_expired] on exactly the alerts with status ACTIVE and
    [expires_at <= now], changes nothing else (the status of every alert
    stays what it was: there is no EXPIRED status) and returns the number
    of alerts its filter matches; a second call at the same time leaves
    the tables as the first call left them. *)
Theorem cleanup_expired_alerts_flags now w :
  let n := fst (AlertDispatcher.cleanup_expired_alerts now w) in
  let w' := snd (AlertDispatcher.cleanup_expired_alerts now w) in
  (forall id,
     alerts (committed w') !! id
     = (fun a => if AlertDispatcher.cleanup_filter now a
                 then Alert.set_is_expired true a else a)
       <$> alerts (committed w) !! id)
  /\ (forall id a', alerts (committed w') !! id = Some a' ->
        exists a, alerts (committed w) !! id = Some a /\ Alert.status a' = Alert.status a)
  /\ (forall a,
        AlertDispatcher.cleanup_filter now a = true
        <-> Alert.status a = ACTIVE
            /\ exists e, Alert.expires_at a = Some e /\ e <= now)
  /\ n = Z.of_nat
           (size (filter (fun r : Z * Alert.t =>
                            AlertDispatcher.cleanup_filter now (snd r) = true)
                         (alerts (committed w))))
  /\ products (committed w') = products (committed w)
  /\ inventory_levels (committed w') = inventory_levels (committed w)
  /\ stock_movements (committed w') = stock_movements (committed w)
  /\ sales (committed w') = sales (committed w)
  /\ sale_items (committed w') = sale_items (committed w)
  /\ snd (AlertDispatcher.cleanup_expired_alerts now w') = w'.
Proof.
  cbn zeta. rewrite !cleanup_expired_alerts_unfold. cbn [fst snd].
  split; [|split; [|split]].
  - intros id. cbn. apply lookup_fmap.
  - intros id a'. cbn. rewrite lookup_fmap.
    destruct (alerts (committed w) !! id) as [a|]; cbn; [|discriminate].
    intros [= <-]. exists a. split; [reflexivity|apply flag_if_expired_status].
  - intros a. unfold AlertDispatcher.cleanup_filter. split.
    + intros [Hs He]%andb_true_iff. split.
      * destruct (Alert.status a); cbn in Hs; congruence.
      * destruct (Alert.expires_at a) as [e|]; [|discriminate].
        exists e. split; [reflexivity|]. apply Z.leb_le, He.
    + intros [Hs (e & He & Hle)]. rewrite Hs, He. cbn. apply Z.leb_le, Hle.
  - repeat split. unfold set_committed, set_alerts. cbn. f_equal. f_equal.
    rewrite <- map_fmap_compose. apply map_fmap_ext.
    intros i x _. apply flag_if_expired_idem.
Qed.

(** C5 as stated fails: alert 8 of [alerts_world] is active and overdue at
    1000; the sweep counts it and leaves its status ACTIVE, and a second
    sweep counts it again. *)
Lemma cleanup_counts_again :
  fst (AlertDispatcher.cleanup_expired_alerts 1000 alerts_world) = 1
  /\ Alert.status
       <$> alerts (committed (snd (AlertDispatcher.cleanup_expired_alerts 1000 alerts_world)))
           !! 8
     = Some ACTIVE
  /\ fst (AlertDispatcher.cleanup_expired_alerts 1000
            (snd (AlertDispatcher.cleanup_expired_alerts 1000 alerts_world))) = 1.
Proof. vm_compute. repeat split. Qed.

Lemma load_name_func t :
  AlertDispatcher.load_name "func" t = (Raise (NameError "func"), t).
Proof. reflexivity. Qed.

(** C10. For every value of [days], [get_alert_statistics] returns the
    empty dictionary: [func] is bound neither in the module namespace of
    alert_dispatcher.py nor in the builtins, so the first query raises
    NameError (an out-of-range [days] raises OverflowError before that),
    and the handler returns [{}]. *)
Theorem get_alert_statistics_empty now days w :
  AlertDispatcher.get_alert_statistics now days w = []
  /\ existsb (String.eqb "func") (AlertDispatcher.module_globals ++ AlertDispatcher.builtins)
     = false.
Proof.
  split; [|reflexivity].
  unfold AlertDispatcher.get_alert_statistics, get_db_context.
  unfold timedelta_days, datetime_sub, AlertDispatcher.load_name.
  unfold_M. cbn.
  destruct (Z.abs days <=? 999999999); cbn; [|reflexivity].
  destruct ((now - days * 86400 <? datetime_min) || (datetime_max <? now - days * 86400));
    cbn; reflexivity.
Qed.

(** ** Recording a sale *)

(** What one sale update leaves in the session. *)
Lemma update_stock_level_sale now (sid : Z) pid q t product :
  products (session t) !! pid = Some product ->
  exists res t' m,
    update_stock_level now pid (- q) SALE (Some (pretty sid)) (Some "sale") None None "main" t
    = (Ok res, t')
    /\ committed (world t') = committed (world t)
    /\ products (session t') = products (session t)
    /\ sales (session t') = sales (session t)
    /\ sale_items (session t') = sale_items (session t)
    /\ stock_movements (session t') = stock_movements (session t) ++ [m]
    /\ item_movement sid (SalesLogger.mkItemData pid q 0%Q) m
    /\ forall p l,
         stored_quantity p l (session t')
         = if decide (pid = p /\ l = "main")
           then Z.max 0 (stored_quantity p l (session t) - q)
           else stored_quantity p l (session t).
Proof.
  intros Hp.
  pose proof (update_stock_level_found now pid (- q) SALE (Some (pretty sid)) (Some "sale")
                None None "main" t product Hp) as Hrun.
  pose proof (target_level_stored pid "main" (session t) (- q)) as Hst.
  pose proof (fun p l H => target_level_other pid "main" p l (session t) (- q) H) as Hot.
  destruct (target_level pid "main" (session t)) as [[i level] levels].
  cbn zeta in Hrun.
  destruct (alert_step _ _ _ _ _ _ _) as [al c2].
  eexists _, _, _. split; [exact Hrun|]. cbn.
  repeat (split; [reflexivity|]).
  split.
  - unfold item_movement. cbn. rewrite update_quantities_current.
    repeat split.
  - intros p l. destruct Hst as (Hkey & Hcur & Hstored).
    unfold stored_quantity in *. unfold stored_level in *. cbn in *.
    destruct (decide (pid = p /\ l = "main")) as [[-> ->]|Hne].
    + rewrite Hstored. cbn. rewrite update_quantities_current, Hcur. reflexivity.
    + rewrite Hot; [reflexivity|]. intros [-> ->]. apply Hne. split; reflexivity.
Qed.

(** The loop over the items: it leaves the committed tables alone, and
    when it runs through, the session holds a row and a movement for each
    item and the inventory taken down item by item. *)
Lemma sell_items_spec now sid items : forall created t,
  match SalesLogger.sell_items now sid items created t with
  | (Raise _, t') => committed (world t') = committed (world t)
  | (Ok rows, t') =>
      committed (world t') = committed (world t)
      /\ products (session t') = products (session t)
      /\ sales (session t') = sales (session t)
      /\ (forall p l, stored_quantity p l (session t')
                      = sold_down p l items (stored_quantity p l (session t)))
      /\ exists new_rows movements,
           rows = created ++ new_rows
           /\ sale_items (session t') = sale_items (session t) ++ new_rows
           /\ Forall2 (item_row sid (products (session t))) items new_rows
           /\ stock_movements (session t') = stock_movements (session t) ++ movements
           /\ Forall2 (item_movement sid) items movements
  end.
Proof.
  induction items as [|item rest IH]; intros created t.
  - cbn. repeat split. exists [], []. rewrite !app_nil_r. repeat split; constructor.
  - cbn [SalesLogger.sell_items]. unfold_M. cbn.
    destruct (products (session t) !! SalesLogger.product_id item) as [product|] eqn:Hp;
      [|reflexivity].
    set (t1 := mkTxn (world t) (set_sale_items _ (session t))).
    destruct (update_stock_level_sale now sid (SalesLogger.product_id item)
                (SalesLogger.quantity item) t1 product Hp)
      as (res & t2 & m & Hrun & Hc & Hprod & Hsales & Hitems & Hmov & Hm & Hq).
    rewrite Hrun.
    specialize (IH (created ++ [SalesLogger.sale_item_of sid product item]) t2).
    destruct (SalesLogger.sell_items now sid rest _ t2) as [[rows|e] t3].
    + destruct IH as (Hc3 & Hprod3 & Hsales3 & Hq3 & new_rows & movements
                      & -> & Hi3 & Hrows & Hm3 & Hmovs).
      split; [rewrite Hc3, Hc; reflexivity|].
      split; [rewrite Hprod3, Hprod; reflexivity|].
      split; [rewrite Hsales3, Hsales; reflexivity|].
      split.
      { intros p l. rewrite Hq3, Hq. cbn. unfold stored_quantity, stored_level. cbn.
        reflexivity. }
      exists (SalesLogger.sale_item_of sid product item :: new_rows), (m :: movements).
      split; [rewrite <- app_assoc; reflexivity|].
      split; [rewrite Hi3, Hitems; cbn; rewrite <- app_assoc; reflexivity|].
      split.
      { constructor; [exists product; split; [exact Hp|reflexivity]|].
        rewrite Hprod in Hrows. exact Hrows. }
      split; [rewrite Hm3, Hmov; cbn; rewrite <- app_assoc; reflexivity|].
      constructor; [|exact Hmovs].
      exact Hm.
    + rewrite IH, Hc. reflexivity.
Qed.

Lemma validate_items_state db items t :
  snd (SalesLogger.validate_items db items t) = t.
Proof.
  induction items as [|item rest IH]; cbn; [reflexivity|].
  destruct (products db !! SalesLogger.product_id item) as [product|]; [|reflexivity].
  destruct (Product.is_tracked product); [|reflexivity].
  destruct (SalesLogger.levels_of _ db) as [|first others]; [exact IH|].
  destruct (_ <? _); [reflexivity|exact IH].
Qed.

Lemma validate_items_tracked db items t :
  forallb (tracked db) items = true ->
  SalesLogger.validate_items db items t =
  match List.find (short_of_stock db) items with
  | Some item => (Raise (ValueError_insufficient_stock (SalesLogger.product_id item)), t)
  | None => (Ok (), t)
  end.
Proof.
  induction items as [|item rest IH]; cbn; [reflexivity|].
  intros [Htr Hrest]%andb_true_iff. unfold tracked in Htr. unfold short_of_stock at 1.
  destruct (products db !! SalesLogger.product_id item) as [product|]; [|discriminate].
  rewrite Htr.
  destruct (SalesLogger.levels_of _ db) as [|first others]; [exact (IH Hrest)|].
  destruct (_ <? _); [reflexivity|exact (IH Hrest)].
Qed.

Lemma _validate_inventory_world items w :
  snd (SalesLogger._validate_inventory items w) = w.
Proof.
  unfold SalesLogger._validate_inventory, get_db_context. unfold_M.
  pose proof (validate_items_state (committed w) items (mkTxn w (committed w))) as H.
  destruct (SalesLogger.validate_items _ _ _) as [[[]|e] t']; cbn in *; subst; reflexivity.
Qed.

Lemma record_sale_block_atomic now tid sd w :
  match get_db_context (SalesLogger.record_sale_block now tid sd) w with
  | (Raise _, w') => committed w' = committed w
  | (Ok res, w') => sale_committed now tid sd (committed w) (committed w') res
  end.
Proof.
  unfold get_db_context, SalesLogger.record_sale_block. unfold_M. cbn.
  destruct (PaymentMethod_of_value (SalesLogger.payment_method sd)) as [payment|e] eqn:Hpay;
    [|reflexivity].
  set (id := next_id (sales (committed w))).
  set (t1 := mkTxn w _).
  pose proof (sell_items_spec now id (SalesLogger.items sd) [] t1) as Hloop.
  destruct (SalesLogger.sell_items now id (SalesLogger.items sd) [] t1) as [[created|e] t2].
  - destruct Hloop as (Hc & Hprod & Hsales & Hq & rows & movements
                       & -> & Hrows & Hfr & Hmov & Hfm).
    cbn. exists payment, rows, movements.
    split; [exact Hpay|].
    split; [apply next_id_fresh|].
    split; [rewrite Hsales; reflexivity|].
    split; [exact Hrows|].
    split; [exact Hfr|].
    split; [exact Hmov|].
    split; [exact Hfm|].
    split; [exact Hq|].
    split; [exact Hprod|].
    repeat split. cbn. f_equal.
    apply Forall2_length in Hfr. symmetry. exact Hfr.
  - cbn. exact Hloop.
Qed.

(** C7. [record_sale] is all or nothing on the committed tables.  When it
    returns, the Sale is committed under a new key with one SaleItem and
    one stock movement for each item, in order, and every inventory row
    taken down by the items sold from it; when it raises, at any step, the
    committed tables are what they were.  The same holds of the block of
    the sale run on its own, on tables the pre-check never saw (where a
    later item can fail after earlier ones went through). *)
Theorem record_sale_atomic now tid sd w :
  match get_db_context (SalesLogger.record_sale_block now tid sd) w with
  | (Raise _, w') => committed w' = committed w
  | (Ok res, w') => sale_committed now tid sd (committed w) (committed w') res
  end
  /\ match SalesLogger.record_sale now tid sd w with
     | (Raise _, w') => committed w' = committed w
     | (Ok res, w') => sale_committed now tid sd (committed w) (committed w') res
     end.
Proof.
  split; [apply record_sale_block_atomic|].
  unfold SalesLogger.record_sale.
  destruct (SalesLogger.items sd) as [|item rest] eqn:Hitems; [reflexivity|].
  pose proof (_validate_inventory_world (item :: rest) w) as Hv.
  destruct (SalesLogger._validate_inventory (item :: rest) w) as [[[]|e] w'];
    cbn in Hv; subst w'.
  - apply record_sale_block_atomic.
  - reflexivity.
Qed.

(** Both outcomes occur.  Six teas are sold from [shop_world]: the sale,
    its item and its movement (10 to 4) are committed, with the one
    LOW_STOCK alert of the crossing. *)
Example record_sale_commits :
  exists res w',
    SalesLogger.record_sale 1000 "TXN-1"
      (sale_of_items [SalesLogger.mkItemData 1 6 3]) shop_world = (Ok res, w')
    /\ size (sales (committed w')) = 1%nat
    /\ length (sale_items (committed w')) = 1%nat
    /\ (fun m => (StockMovement.previous_quantity m, StockMovement.new_quantity m))
       <$> stock_movements (committed w') = [(10, 4)]
    /\ InventoryLevel.available_quantity <$> stored_level 1 "main" (committed w') = Some 4
    /\ (fun a => (Alert.alert_type a, Alert.severity a))
       <$> (map_to_list (alerts (committed w'))).*2 = [(LOW_STOCK, MEDIUM)].
Proof. eexists _, _. split; [vm_compute; reflexivity|]. repeat split. Qed.

(** In the block run on its own, the second item names a product that is
    not in the catalogue: the session had taken the first item, the
    committed tables have nothing of it.  The cache entries written on
    the way stay (no service reads them back). *)
Example record_sale_block_rolls_back :
  let block :=
    SalesLogger.record_sale_block 1000 "TXN-1"
      (sale_of_items [SalesLogger.mkItemData 1 6 3; SalesLogger.mkItemData 9 1 2]) in
  exists t',
    block (mkTxn shop_world (committed shop_world))
    = (Raise (ValueError_product_not_found 9), t')
    /\ length (stock_movements (session t')) = 1%nat
    /\ stored_quantity 1 "main" (session t') = 4
    /\ fst (get_db_context block shop_world) = Raise (ValueError_product_not_found 9)
    /\ committed (snd (get_db_context block shop_world)) = committed shop_world
    /\ cache (snd (get_db_context block shop_world))
       = [(AlertKey 1, AlertEntry LOW_STOCK MEDIUM "Low Stock Alert: tea");
          (StockKey 1, StockEntry 4 4)].
Proof. cbn zeta. eexists. split; [vm_compute; reflexivity|]. repeat split. Qed.

Lemma validate_items_short db items t item :
  item ∈ items -> short_of_stock db item = true ->
  exists e,
    SalesLogger.validate_items db items t = (Raise e, t)
    /\ exists pid, e = ValueError_insufficient_stock pid
                   \/ e = ValueError_not_found_or_not_tracked pid.
Proof.
  induction items as [|head rest IH]; intros Hin Hshort; [inversion Hin|].
  cbn.
  destruct (products db !! SalesLogger.product_id head) as [product|] eqn:Hp;
    [|eexists; split; [reflexivity|eexists; right; reflexivity]].
  destruct (Product.is_tracked product);
    [|eexists; split; [reflexivity|eexists; right; reflexivity]].
  apply elem_of_cons in Hin as [->|Hin].
  - unfold short_of_stock in Hshort.
    destruct (SalesLogger.levels_of _ db) as [|first others]; [discriminate|].
    rewrite Hshort. eexists; split; [reflexivity|eexists; left; reflexivity].
  - destruct (SalesLogger.levels_of _ db) as [|first others]; [exact (IH Hin Hshort)|].
    destruct (_ <? _); [|exact (IH Hin Hshort)].
    eexists; split; [reflexivity|eexists; left; reflexivity].
Qed.

(** C6, as the code has it.  [record_sale] raises the no-items error on an
    empty item list.  It fails on every request in which some item asks
    for more than the available quantity of the first inventory row of its
    product: with the insufficient-stock error, or with the
    not-found-or-not-tracked error when an item names a product that is
    unknown or untracked.  When every item names a product that is found
    and tracked, the error is the insufficient-stock error of the first
    such item; an item whose product has no inventory row is not checked,
    and with no item short of stock the sale goes on to its transaction.
    Nothing is changed in the failure cases. *)
Theorem record_sale_precheck now tid sd w :
  (SalesLogger.items sd = [] ->
   SalesLogger.record_sale now tid sd w = (Raise ValueError_no_items, w))
  /\ (forall item,
        item ∈ SalesLogger.items sd ->
        short_of_stock (committed w) item = true ->
        exists e,
          SalesLogger.record_sale now tid sd w = (Raise e, w)
          /\ exists pid, e = ValueError_insufficient_stock pid
                         \/ e = ValueError_not_found_or_not_tracked pid)
  /\ (forallb (tracked (committed w)) (SalesLogger.items sd) = true ->
      SalesLogger.record_sale now tid sd w =
      match SalesLogger.items sd,
            List.find (short_of_stock (committed w)) (SalesLogger.items sd) with
      | [], _ => (Raise ValueError_no_items, w)
      | _ :: _, Some item =>
          (Raise (ValueError_insufficient_stock (SalesLogger.product_id item)), w)
      | _ :: _, None => get_db_context (SalesLogger.record_sale_block now tid sd) w
      end).
Proof.
  unfold SalesLogger.record_sale. split; [|split].
  - intros ->. reflexivity.
  - intros item Hin Hshort.
    destruct (SalesLogger.items sd) as [|head rest] eqn:Hitems; [inversion Hin|].
    unfold SalesLogger._validate_inventory, get_db_context. unfold_M.
    destruct (validate_items_short (committed w) (head :: rest)
                (mkTxn w (committed w)) item Hin Hshort) as (e & Hrun & He).
    exists e. split; [|exact He]. cbn [session]. rewrite Hrun. reflexivity.
  - intros Htr.
    destruct (SalesLogger.items sd) as [|head rest] eqn:Hitems; [reflexivity|].
    unfold SalesLogger._validate_inventory, get_db_context. unfold_M.
    rewrite (validate_items_tracked _ _ _ Htr).
    destruct (List.find _ _); reflexivity.
Qed.

(** Five jams (no inventory row, not checked) and eleven teas (ten
    available): the sale is refused for the tea. *)
Lemma record_sale_precheck_witness :
  forallb (tracked (committed shop_world))
    [SalesLogger.mkItemData 2 5 3; SalesLogger.mkItemData 1 11 2] = true
  /\ short_of_stock (committed shop_world) (SalesLogger.mkItemData 1 11 2) = true
  /\ short_of_stock (committed shop_world) (SalesLogger.mkItemData 2 5 3) = false
  /\ SalesLogger.record_sale 1000 "TXN-1"
       (sale_of_items [SalesLogger.mkItemData 2 5 3; SalesLogger.mkItemData 1 11 2])
       shop_world
     = (Raise (ValueError_insufficient_stock 1), shop_world).
Proof.
  split; [reflexivity|]. split; [reflexivity|]. split; [reflexivity|].
  exact (proj2 (proj2 (record_sale_precheck 1000 "TXN-1"
           (sale_of_items [SalesLogger.mkItemData 2 5 3; SalesLogger.mkItemData 1 11 2])
           shop_world)) eq_refl).
Defined.

(** C6 as stated fails: jam has no inventory row in [shop_world], and a
    sale of five jams is recorded. *)
Lemma record_sale_without_inventory_row :
  stored_level 2 "main" (committed shop_world) = None
  /\ SalesLogger.levels_of 2 (committed shop_world) = []
  /\ exists res w',
       SalesLogger.record_sale 1000 "TXN-1"
         (sale_of_items [SalesLogger.mkItemData 2 5 3]) shop_world = (Ok res, w')
       /\ size (sales (committed w')) = 1%nat
       /\ length (sale_items (committed w')) = 1%nat
       /\ length (stock_movements (committed w')) = 1%nat.
Proof.
  split; [reflexivity|]. split; [reflexivity|].
  eexists _, _. split; [vm_compute; reflexivity|]. repeat split.
Qed.

(** ** Bounds at the endpoints *)

Lemma get_stock_movements_capped product_id limit w movements count :
  Endpoints.get_stock_movements product_id limit w = Endpoints.Response (movements, count) ->
  count <= 500.
Proof.
  unfold Endpoints.get_stock_movements, InventoryMonitor.get_stock_movements, get_db_context.
  unfold_M. cbn.
  set (lim := if 500 <? limit then 500 else limit).
  assert (lim <= 500) by (subst lim; destruct (Z.ltb_spec 500 limit); lia).
  destruct (lim <? 0) eqn:E; cbn; [discriminate|].
  intros [= <- <-]. rewrite length_take. lia.
Qed.

Lemma get_recent_sales_capped limit w recent_sales count :
  Endpoints.get_recent_sales limit w = Endpoints.Response (recent_sales, count) ->
  count <= 100.
Proof.
  unfold Endpoints.get_recent_sales, SalesLogger.get_recent_sales, get_db_context.
  unfold_M. cbn.
  set (lim := if 100 <? limit then 100 else limit).
  assert (lim <= 100) by (subst lim; destruct (Z.ltb_spec 100 limit); lia).
  destruct (lim <? 0) eqn:E; cbn; [discriminate|].
  intros [= <- <-]. rewrite length_take. lia.
Qed.

Lemma get_alert_statistics_days_clamped now days w period statistics :
  Endpoints.get_alert_statistics now days w = Endpoints.Response (period, statistics) ->
  period <= 365 /\ period = Z.min days 365.
Proof.
  unfold Endpoints.get_alert_statistics. intros [= <- _].
  destruct (Z.ltb_spec 365 days); lia.
Qed.

Section PredictionBounds.

Context {Model Scaler Prediction : Type}.
Variable predict_hour : Model -> option Scaler -> Z -> World -> result (option Prediction) * World.

(** Beyond a week the request is served as a request for 168 hours. *)
Lemma get_rush_hour_predictions_clamped
    (rush_predictor : @RushPredictor.Predictor Model Scaler) hours_ahead now w :
  168 < hours_ahead ->
  Endpoints.get_rush_hour_predictions predict_hour rush_predictor hours_ahead now w
  = Endpoints.get_rush_hour_predictions predict_hour rush_predictor 168 now w.
Proof.
  intros H. unfold Endpoints.get_rush_hour_predictions.
  destruct (Z.ltb_spec 168 hours_ahead); [reflexivity|lia].
Qed.

End PredictionBounds.

(** C8. The limit of GET /alerts/active is not capped: on the 501 active
    alerts of [crowded_world] a request with limit 1000 is answered with
    all 501, where the sibling endpoints cap their limits (500 for the
    stock movements, 100 for the recent sales). *)
Theorem get_active_alerts_limit_uncapped :
  exists alerts,
    Endpoints.get_active_alerts None None 1000 crowded_world
    = Endpoints.Response (alerts, 501)
    /\ length alerts = 501%nat.
Proof. eexists. split; [vm_compute; reflexivity|]. vm_compute. reflexivity. Qed.

(** ** Forecasting without history *)

Section ForecasterProperties.

Context {Model Scaler Prediction : Type}.
Variable fit :
  list (list Q) -> list Q -> @RushPredictor.Predictor Model Scaler ->
  result unit * @RushPredictor.Predictor Model Scaler.
Variable predict_hour : Model -> option Scaler -> Z -> World -> result (option Prediction) * World.


End ForecasterProperties.


(** * Further properties *)

(** ** Inventory *)

Lemma update_quantities_unreserved q level :
  unreserved level -> unreserved (update_quantities q level).
Proof.
  unfold unreserved. intros (Hr & Hc & Ha).
  rewrite update_quantities_reserved, update_quantities_current,
    update_quantities_available, Hr.
  destruct (Z.ltb_spec (InventoryLevel.current_quantity level + q) 0); lia.
Qed.

Lemma target_level_lookup pid loc db :
  let '(i, level, levels) := target_level pid loc db in
  levels !! i = Some level
  /\ (levels = inventory_levels db
      \/ levels = inventory_levels db ++ [InventoryLevel.mk pid 0 0 0 loc]
         /\ level = InventoryLevel.mk pid 0 0 0 loc).
Proof.
  unfold target_level.
  destruct (list_find (level_filter pid loc) (inventory_levels db)) as [[i level]|] eqn:E.
  - apply list_find_Some in E as (Hi & _). split; [exact Hi|left; reflexivity].
  - split; [|right; split; reflexivity].
    rewrite lookup_app_r by lia. rewrite Nat.sub_diag. reflexivity.
Qed.

(** All that one call of [update_stock_level] does. *)
Lemma update_stock_level_outcome now pid q mt r1 r2 u n loc t :
  let '(r, t') := update_stock_level now pid q mt r1 r2 u n loc t in
  match products (session t) !! pid with
  | None => r = Raise (ValueError_product_not_found pid) /\ t' = t
  | Some product =>
      let '(i, level, levels) := target_level pid loc (session t) in
      let level' := update_quantities q level in
      exists al c,
        (al, c) = alert_step now pid product (InventoryLevel.available_quantity level')
                    (InventoryLevel.available_quantity level) (alerts (session t))
                    (cache_set (StockKey pid)
                       (StockEntry (InventoryLevel.current_quantity level')
                          (InventoryLevel.available_quantity level'))
                       (cache (world t)))
        /\ r = Ok (mkUpdateResult pid (Product.name product)
                     (InventoryLevel.current_quantity level)
                     (InventoryLevel.current_quantity level')
                     (InventoryLevel.available_quantity level') mt q)
        /\ t' = mkTxn (mkWorld (committed (world t)) c)
                  (mkDb (products (session t)) (<[i := level']> levels)
                     (stock_movements (session t) ++
                        [StockMovement.mk pid mt q (InventoryLevel.current_quantity level)
                           (InventoryLevel.current_quantity level') r1 r2 u n loc now])
                     al (sales (session t)) (sale_items (session t)))
  end.
Proof.
  destruct (products (session t) !! pid) as [product|] eqn:Hp.
  - pose proof (update_stock_level_found now pid q mt r1 r2 u n loc t product Hp) as Hrun.
    destruct (target_level pid loc (session t)) as [[i level] levels].
    cbn zeta in *.
    destruct (alert_step _ _ _ _ _ _ _) as [al c2] eqn:Hal.
    rewrite Hrun. exists al, c2. repeat split.
  - rewrite (update_stock_level_missing _ _ _ _ _ _ _ _ _ _ Hp). split; reflexivity.
Qed.

(** Whatever holds of every inventory row, of a new row and of a row
    after [update_quantities], holds of every row after
    [update_stock_level]. *)
Lemma update_stock_level_rows (P : InventoryLevel.t -> Prop) now pid q mt r1 r2 u n loc t :
  P (InventoryLevel.mk pid 0 0 0 loc) ->
  (forall level, P level -> P (update_quantities q level)) ->
  Forall P (inventory_levels (session t)) ->
  Forall P
    (inventory_levels (session (snd (update_stock_level now pid q mt r1 r2 u n loc t)))).
Proof.
  intros Hnew Hstep Hinv.
  pose proof (update_stock_level_outcome now pid q mt r1 r2 u n loc t) as Hout.
  destruct (update_stock_level now pid q mt r1 r2 u n loc t) as [r t']. cbn [snd].
  destruct (products (session t) !! pid) as [product|].
  - pose proof (target_level_lookup pid loc (session t)) as Hlk.
    destruct (target_level pid loc (session t)) as [[i level] levels].
    destruct Hout as (al & c & _ & _ & ->). cbn.
    destruct Hlk as (Hi & Hlevels).
    assert (Forall P levels) as Hall.
    { destruct Hlevels as [->|[-> _]]; [exact Hinv|].
      apply Forall_app. split; [exact Hinv|].
      constructor; [exact Hnew|constructor]. }
    apply Forall_insert; [exact Hall|].
    apply Hstep.
    rewrite Forall_forall in Hall. apply Hall. eapply list_elem_of_lookup_2, Hi.
  - destruct Hout as (_ & ->). exact Hinv.
Qed.

(** X1. On a table where every row has nothing reserved, a current
    quantity that is not negative and the available quantity equal to the
    clamped difference [max 0 (current - reserved)] (the rows this code
    creates), every row is so again after [update_stock_level], whatever
    its arguments and its outcome. *)
Theorem update_stock_level_keeps_unreserved now pid q mt r1 r2 u n loc t :
  Forall unreserved (inventory_levels (session t)) ->
  Forall unreserved
    (inventory_levels (session (snd (update_stock_level now pid q mt r1 r2 u n loc t)))).
Proof.
  apply update_stock_level_rows.
  - unfold unreserved. cbn. lia.
  - intros level Hlevel. apply update_quantities_unreserved. exact Hlevel.
Qed.

Lemma shop_rows_unreserved :
  Forall unreserved (inventory_levels (session (mkTxn shop_world (committed shop_world)))).
Proof. constructor; [unfold unreserved; cbn; lia|constructor]. Defined.

Lemma update_stock_level_keeps_unreserved_witness :
  Forall unreserved (inventory_levels (session (mkTxn shop_world (committed shop_world))))
  /\ Forall unreserved
       (inventory_levels (session (snd
          (update_stock_level 1000 1 (-12) SALE None None None None "main"
             (mkTxn shop_world (committed shop_world)))))).
Proof.
  split; [exact shop_rows_unreserved|].
  exact (update_stock_level_keeps_unreserved 1000 1 (-12) SALE None None None None "main"
           (mkTxn shop_world (committed shop_world)) shop_rows_unreserved).
Defined.


Lemma last_movement_snoc p l movements m :
  last_movement p l (movements ++ [m]) =
  if decide (StockMovement.product_id m = p /\ StockMovement.location_id m = l)
  then Some m else last_movement p l movements.
Proof.
  unfold last_movement. rewrite filter_app.
  destruct (decide (StockMovement.product_id m = p /\ StockMovement.location_id m = l))
    as [H|H].
  - rewrite filter_cons_True by exact H. cbn. apply last_snoc.
  - rewrite filter_cons_False by exact H. cbn. rewrite app_nil_r. reflexivity.
Qed.

(** The movement one call of [update_stock_level] appends, and the
    quantities it leaves alone. *)
Lemma update_stock_level_movement now pid q mt r1 r2 u n loc t :
  let t' := snd (update_stock_level now pid q mt r1 r2 u n loc t) in
  match products (session t) !! pid with
  | None => t' = t
  | Some _ =>
      (exists m,
         stock_movements (session t') = stock_movements (session t) ++ [m]
         /\ StockMovement.product_id m = pid
         /\ StockMovement.location_id m = loc
         /\ StockMovement.quantity m = q
         /\ StockMovement.previous_quantity m = stored_quantity pid loc (session t)
         /\ StockMovement.new_quantity m = stored_quantity pid loc (session t'))
      /\ (forall p l, ~ (pid = p /\ loc = l) ->
            stored_quantity p l (session t') = stored_quantity p l (session t))
  end.
Proof.
  cbn zeta.
  pose proof (update_stock_level_outcome now pid q mt r1 r2 u n loc t) as Hout.
  destruct (update_stock_level now pid q mt r1 r2 u n loc t) as [r t']. cbn [snd].
  destruct (products (session t) !! pid) as [product|] eqn:Hp.
  - pose proof (target_level_stored pid loc (session t) q) as Hst.
    pose proof (fun p l H => target_level_other pid loc p l (session t) q H) as Hot.
    destruct (target_level pid loc (session t)) as [[i level] levels].
    destruct Hout as (al & c & _ & _ & ->).
    destruct Hst as (_ & Hcur & Hstored).
    set (db' := mkDb _ _ _ _ _ _).
    assert (Hq : stored_quantity pid loc db'
                 = InventoryLevel.current_quantity (update_quantities q level)).
    { unfold stored_quantity.
      assert (stored_level pid loc db' = Some (update_quantities q level)) as ->
        by exact Hstored.
      reflexivity. }
    split.
    + eexists. cbn [session db' stock_movements].
      split; [reflexivity|]. split; [reflexivity|]. split; [reflexivity|].
      split; [reflexivity|]. split; [exact Hcur|]. symmetry. exact Hq.
    + intros p l Hne. unfold stored_quantity. f_equal.
      apply (Hot p l). intros [-> ->]. apply Hne. split; reflexivity.
  - destruct Hout as (_ & ->). reflexivity.
Qed.

Lemma update_stock_level_ledger now pid q mt r1 r2 u n loc t :
  ledger_agrees (session t) ->
  ledger_agrees (session (snd (update_stock_level now pid q mt r1 r2 u n loc t))).
Proof.
  intros Hinv.
  pose proof (update_stock_level_movement now pid q mt r1 r2 u n loc t) as Hmove.
  cbn zeta in Hmove.
  destruct (products (session t) !! pid) as [product|]; [|rewrite Hmove; exact Hinv].
  destruct Hmove as ((m & Happ & Hpid & Hloc & _ & _ & Hnew) & Hother).
  intros p l m'. rewrite Happ, last_movement_snoc, Hpid, Hloc.
  destruct (decide (pid = p /\ loc = l)) as [[<- <-]|Hne].
  - intros [= <-]. symmetry. exact Hnew.
  - intros Hm. rewrite (Hother p l Hne). apply Hinv, Hm.
Qed.


Lemma shop_ledger_agrees :
  ledger_agrees (session (mkTxn shop_world (committed shop_world))).
Proof. intros p l m H. discriminate H. Defined.


(** X4. Restocking is silent: on a table of unreserved rows a call of
    [update_stock_level] with a quantity that is not negative adds no
    alert. *)
Theorem restock_raises_no_alert now pid q mt r1 r2 u n loc t :
  Forall unreserved (inventory_levels (session t)) ->
  0 <= q ->
  alerts (session (snd (update_stock_level now pid q mt r1 r2 u n loc t)))
  = alerts (session t).
Proof.
  intros Hinv Hq.
  pose proof (update_stock_level_outcome now pid q mt r1 r2 u n loc t) as Hout.
  destruct (update_stock_level now pid q mt r1 r2 u n loc t) as [r t']. cbn [snd].
  destruct (products (session t) !! pid) as [product|] eqn:Hp.
  - pose proof (target_level_lookup pid loc (session t)) as Hlk.
    destruct (target_level pid loc (session t)) as [[i level] levels].
    destruct Hout as (al & c & Hal & _ & ->). cbn.
    destruct Hlk as (Hi & Hlevels).
    assert (unreserved level) as (Hr & Hc & Ha).
    { destruct Hlevels as [->|[_ ->]].
      - rewrite Forall_forall in Hinv. apply Hinv. eapply list_elem_of_lookup_2, Hi.
      - unfold unreserved. cbn. lia. }
    unfold alert_step in Hal.
    assert (stock_alert product
              (InventoryLevel.available_quantity (update_quantities q level))
              (InventoryLevel.available_quantity level) = None) as Hnone.
    { rewrite update_quantities_available, Hr, Ha, Hr.
      destruct (Z.ltb_spec (InventoryLevel.current_quantity level + q) 0); [lia|].
      unfold stock_alert. zbool; try reflexivity; lia. }
    rewrite Hnone in Hal. injection Hal as -> _. reflexivity.
  - destruct Hout as (_ & ->). reflexivity.
Qed.

Lemma restock_raises_no_alert_witness :
  Forall unreserved (inventory_levels (session (mkTxn shop_world (committed shop_world))))
  /\ 0 <= 5
  /\ alerts (session (snd
       (update_stock_level 1000 1 5 PURCHASE None None None None "main"
          (mkTxn shop_world (committed shop_world)))))
     = alerts (session (mkTxn shop_world (committed shop_world))).
Proof.
  assert (H5 : 0 <= 5) by lia.
  split; [exact shop_rows_unreserved|]. split; [exact H5|].
  exact (restock_raises_no_alert 1000 1 5 PURCHASE None None None None "main"
           (mkTxn shop_world (committed shop_world)) shop_rows_unreserved H5).
Defined.

(** X5. For a product with [0 <= min_stock_level <= reorder_point] the
    label of [_get_stock_status] agrees with the alert of the update that
    led to the row: out_of_stock with the OUT_OF_STOCK alert, low_stock
    with the LOW_STOCK alert of severity MEDIUM, reorder_needed with the
    one of severity LOW; and the label is out_of_stock exactly when the
    available quantity is at most 0. *)
Theorem stock_status_matches_alert product inventory previous :
  0 <= Product.min_stock_level product ->
  Product.min_stock_level product <= Product.reorder_point product ->
  let n := InventoryLevel.available_quantity inventory in
  (decision product n previous = Some (OUT_OF_STOCK, HIGH) ->
   _get_stock_status product inventory = "out_of_stock")
  /\ (decision product n previous = Some (LOW_STOCK, MEDIUM) ->
      _get_stock_status product inventory = "low_stock")
  /\ (decision product n previous = Some (LOW_STOCK, LOW) ->
      _get_stock_status product inventory = "reorder_needed")
  /\ (_get_stock_status product inventory = "out_of_stock" <-> n <= 0).
Proof.
  intros Hmin Hre. cbn zeta.
  unfold decision, stock_alert, _get_stock_status.
  zbool; repeat split; intros; try congruence; try lia.
Qed.

Lemma stock_status_matches_alert_witness :
  0 <= Product.min_stock_level rice
  /\ Product.min_stock_level rice <= Product.reorder_point rice
  /\ decision rice 8 15 = Some (LOW_STOCK, MEDIUM)
  /\ _get_stock_status rice (InventoryLevel.mk 3 8 0 8 "main") = "low_stock".
Proof.
  assert (H1 : 0 <= Product.min_stock_level rice) by (cbn; lia).
  assert (H2 : Product.min_stock_level rice <= Product.reorder_point rice) by (cbn; lia).
  split; [exact H1|]. split; [exact H2|].
  assert (Hd : decision rice 8 15 = Some (LOW_STOCK, MEDIUM)) by reflexivity.
  split; [exact Hd|].
  exact (proj1 (proj2 (stock_status_matches_alert rice (InventoryLevel.mk 3 8 0 8 "main") 15
                         H1 H2)) Hd).
Defined.

(** ** Alerts *)

Section merge_sort_fmap.

Context {A B : Type} (RA : relation A) (RB : relation B).
Context `{!forall x y, Decision (RA x y)} `{!forall x y, Decision (RB x y)}.
Variable g : A -> B.
Hypothesis Hg : forall x y, RB (g x) (g y) <-> RA x y.

Lemma list_merge_fmap (l1 : list A) : forall l2 : list A,
  list_merge RB (g <$> l1) (g <$> l2) = g <$> list_merge RA l1 l2.
Proof.
  induction l1 as [|x1 l1 IH1]; intros l2.
  - destruct l2; reflexivity.
  - induction l2 as [|x2 l2 IH2].
    + reflexivity.
    + rewrite !fmap_cons, !list_merge_cons.
      destruct (decide (RA x1 x2)) as [Hr|Hr].
      * rewrite decide_True by (apply Hg; exact Hr).
        rewrite fmap_cons. f_equal. rewrite <- IH1. reflexivity.
      * rewrite decide_False by (intros Hb; apply Hr, Hg; exact Hb).
        rewrite fmap_cons. f_equal. rewrite <- IH2. reflexivity.
Qed.

Lemma merge_list_to_stack_fmap (st : list (option (list A))) : forall l : list A,
  merge_list_to_stack RB (map_stack g st) (g <$> l)
  = map_stack g (merge_list_to_stack RA st l).
Proof.
  unfold map_stack.
  induction st as [|[l'|] st IH]; intros l; cbn; [reflexivity| |reflexivity].
  f_equal. rewrite list_merge_fmap. apply IH.
Qed.

Lemma merge_stack_fmap (st : list (option (list A))) :
  merge_stack RB (map_stack g st) = g <$> merge_stack RA st.
Proof.
  unfold map_stack.
  induction st as [|[l'|] st IH]; cbn; [reflexivity| |exact IH].
  rewrite IH. apply list_merge_fmap.
Qed.

Lemma merge_sort_aux_fmap (l : list A) : forall st : list (option (list A)),
  merge_sort_aux RB (map_stack g st) (g <$> l) = g <$> merge_sort_aux RA st l.
Proof.
  induction l as [|x l IH]; intros st; cbn [merge_sort_aux fmap list_fmap].
  - apply merge_stack_fmap.
  - rewrite <- IH. f_equal.
    exact (merge_list_to_stack_fmap st [x]).
Qed.

Lemma merge_sort_fmap (l : list A) :
  merge_sort RB (g <$> l) = g <$> merge_sort RA l.
Proof. exact (merge_sort_aux_fmap l []). Qed.

End merge_sort_fmap.

Lemma filter_fmap_comm {A B} (f : A -> B) (P : B -> Prop) (Q : A -> Prop)
    `{!forall y, Decision (P y)} `{!forall x, Decision (Q x)} (l : list A) :
  (forall x, P (f x) <-> Q x) ->
  filter P (f <$> l) = f <$> filter Q l.
Proof.
  intros HPQ. induction l as [|x l IH]; [reflexivity|].
  rewrite fmap_cons, !filter_cons.
  destruct (decide (Q x)) as [Hq|Hq].
  - rewrite decide_True by (apply HPQ; exact Hq). rewrite fmap_cons, IH. reflexivity.
  - rewrite decide_False by (intros Hp; apply Hq, HPQ; exact Hp). exact IH.
Qed.

#[global] Instance newer_first_total : Total AlertDispatcher.newer_first.
Proof. intros x y. unfold AlertDispatcher.newer_first. lia. Qed.

#[global] Instance newer_first_trans : Transitive AlertDispatcher.newer_first.
Proof. intros x y z. unfold AlertDispatcher.newer_first. lia. Qed.

Lemma get_active_alerts_unfold ty sev limit w :
  AlertDispatcher.get_active_alerts ty sev limit w =
  if limit <? 0 then []
  else take (Z.to_nat limit)
         (merge_sort AlertDispatcher.newer_first
            (filter (fun r : Z * Alert.t => AlertDispatcher.active_filter ty sev (snd r) = true)
                    (map_to_list (alerts (committed w))))).
Proof.
  unfold AlertDispatcher.get_active_alerts, get_db_context. unfold_M. cbn.
  destruct (limit <? 0); reflexivity.
Qed.

Lemma active_filter_spec ty sev a :
  AlertDispatcher.active_filter ty sev a = true <->
  Alert.status a = ACTIVE
  /\ (forall t, ty = Some t -> Alert.alert_type a = t)
  /\ (forall s, sev = Some s -> Alert.severity a = s).
Proof.
  unfold AlertDispatcher.active_filter. split.
  - intros [[Hs Ht]%andb_true_iff Hv]%andb_true_iff. split; [|split].
    + destruct (Alert.status a); cbn in Hs; congruence.
    + intros t ->. destruct (Alert.alert_type a), t; cbn in Ht; congruence.
    + intros s ->. destruct (Alert.severity a), s; cbn in Hv; congruence.
  - intros (Hs & Ht & Hv). rewrite Hs. cbn.
    apply andb_true_iff. split.
    + destruct ty as [t|]; [|reflexivity]. rewrite (Ht t eq_refl). destruct t; reflexivity.
    + destruct sev as [s|]; [|reflexivity]. rewrite (Hv s eq_refl). destruct s; reflexivity.
Qed.

(** X6. The rows [get_active_alerts] returns are rows of the committed
    alerts table whose status is ACTIVE and which match the type and
    severity filters that were given; there are at most [max 0 limit] of
    them, newest first, no alert twice; and when the limit is at least the
    size of the table every matching row is returned. *)
Theorem get_active_alerts_sound ty sev limit w :
  let rows := AlertDispatcher.get_active_alerts ty sev limit w in
  (forall id a, (id, a) ∈ rows ->
     alerts (committed w) !! id = Some a
     /\ Alert.status a = ACTIVE
     /\ (forall t, ty = Some t -> Alert.alert_type a = t)
     /\ (forall s, sev = Some s -> Alert.severity a = s))
  /\ Z.of_nat (length rows) <= Z.max 0 limit
  /\ StronglySorted AlertDispatcher.newer_first rows
  /\ NoDup rows.*1
  /\ (Z.of_nat (size (alerts (committed w))) <= limit ->
      forall id a,
        alerts (committed w) !! id = Some a ->
        AlertDispatcher.active_filter ty sev a = true ->
        (id, a) ∈ rows).
Proof.
  cbn zeta. rewrite get_active_alerts_unfold.
  set (P := fun r : Z * Alert.t => AlertDispatcher.active_filter ty sev (snd r) = true).
  set (table := map_to_list (alerts (committed w))).
  destruct (Z.ltb_spec limit 0) as [Hneg|Hpos].
  { split; [intros id a Hin; inversion Hin|].
    split; [cbn; lia|]. split; [constructor|]. split; [constructor|].
    intros Hsize. lia. }
  assert (Hsub : take (Z.to_nat limit) (merge_sort AlertDispatcher.newer_first (filter P table))
                 `sublist_of` merge_sort AlertDispatcher.newer_first (filter P table))
    by apply sublist_take.
  split; [|split; [|split; [|split]]].
  - intros id a Hin.
    apply subseteq_take in Hin. rewrite merge_sort_Permutation in Hin.
    apply list_elem_of_filter in Hin as [Hp Hin].
    apply elem_of_map_to_list in Hin. split; [exact Hin|].
    apply active_filter_spec, Hp.
  - rewrite length_take. lia.
  - pose proof (StronglySorted_merge_sort AlertDispatcher.newer_first (filter P table)) as Hs.
    rewrite <- (take_drop (Z.to_nat limit)) in Hs.
    eapply StronglySorted_app_1_l, Hs.
  - eapply sublist_NoDup; [|apply fmap_sublist, Hsub].
    rewrite merge_sort_Permutation.
    eapply sublist_NoDup; [exact (NoDup_fst_map_to_list (alerts (committed w)))|].
    apply fmap_sublist, sublist_filter.
  - intros Hsize id a Hlk Hact.
    rewrite take_ge.
    + rewrite merge_sort_Permutation. apply list_elem_of_filter. split; [exact Hact|].
      apply elem_of_map_to_list, Hlk.
    + rewrite merge_sort_Permutation.
      pose proof (length_filter P table). subst table.
      rewrite length_map_to_list in *. lia.
Qed.

Lemma active_filter_flagged ty sev now a :
  AlertDispatcher.active_filter ty sev (AlertDispatcher.flag_if_expired now a)
  = AlertDispatcher.active_filter ty sev a.
Proof.
  unfold AlertDispatcher.flag_if_expired.
  destruct (AlertDispatcher.cleanup_filter now a); reflexivity.
Qed.

(** X7. The sweep of expired alerts does not shorten the active list: after
    [cleanup_expired_alerts] the query [get_active_alerts] returns the same
    alerts in the same order, the swept ones only carrying the
    [is_expired] flag, since the sweep leaves [status] at ACTIVE and the
    query does not read the flag. *)
Theorem cleanup_keeps_active_list now ty sev limit w :
  AlertDispatcher.get_active_alerts ty sev limit
    (snd (AlertDispatcher.cleanup_expired_alerts now w))
  = prod_map id (AlertDispatcher.flag_if_expired now)
    <$> AlertDispatcher.get_active_alerts ty sev limit w.
Proof.
  rewrite !get_active_alerts_unfold. rewrite cleanup_expired_alerts_unfold. cbn [snd].
  destruct (limit <? 0); [reflexivity|].
  cbn [committed set_committed alerts set_alerts].
  rewrite map_to_list_fmap, fmap_take. f_equal.
  rewrite <- (merge_sort_fmap AlertDispatcher.newer_first AlertDispatcher.newer_first).
  - f_equal. apply filter_fmap_comm. intros [id a]. cbn.
    rewrite active_filter_flagged. reflexivity.
  - intros [i a] [j b]. unfold AlertDispatcher.newer_first, AlertDispatcher.flag_if_expired.
    cbn. destruct (AlertDispatcher.cleanup_filter now a),
      (AlertDispatcher.cleanup_filter now b); reflexivity.
Qed.






(** X11. The channels an alert is dispatched to grow with its severity:
    every channel used for a lower severity is used for a higher one.  All
    channels of the severity are configured, so none is skipped; the
    dashboard is always among them, SMS only for CRITICAL and e-mail only
    for HIGH and CRITICAL. *)
Theorem dispatch_channels_escalate a b :
  severity_rank (Alert.severity a) <= severity_rank (Alert.severity b) ->
  AlertDispatcher._dispatch_alert a ⊆ AlertDispatcher._dispatch_alert b
  /\ AlertDispatcher._dispatch_alert a
     = AlertDispatcher._get_channels_for_severity (Alert.severity a)
  /\ "dashboard" ∈ AlertDispatcher._dispatch_alert a
  /\ ("sms" ∈ AlertDispatcher._dispatch_alert a <-> Alert.severity a = CRITICAL)
  /\ ("email" ∈ AlertDispatcher._dispatch_alert a
      <-> Alert.severity a = HIGH \/ Alert.severity a = CRITICAL).
Proof.
  unfold AlertDispatcher._dispatch_alert.
  destruct (Alert.severity a), (Alert.severity b); cbn [severity_rank]; intros H; try lia;
    (split; [compute_done|]); (split; [reflexivity|]); (split; [compute_done|]);
    split;
    (split;
     [first [ intros _; reflexivity
            | intros _; left; reflexivity
            | intros _; right; reflexivity
            | intros Hx; exfalso; revert Hx; compute_done ]
     | first [ intros _; compute_done
             | intros Hx; exfalso; discriminate Hx
             | intros [Hx|Hx]; exfalso; discriminate Hx ]]).
Qed.

Lemma dispatch_channels_escalate_witness :
  severity_rank (Alert.severity (fresh_alert 1)) <= severity_rank (Alert.severity overdue_alert)
  /\ AlertDispatcher._dispatch_alert (fresh_alert 1)
     ⊆ AlertDispatcher._dispatch_alert overdue_alert.
Proof.
  assert (H : severity_rank (Alert.severity (fresh_alert 1))
              <= severity_rank (Alert.severity overdue_alert)) by (cbn; lia).
  split; [exact H|].
  exact (proj1 (dispatch_channels_escalate (fresh_alert 1) overdue_alert H)).
Defined.

(** ** Sales *)

Lemma validate_items_outcome db items t :
  match SalesLogger.validate_items db items t with
  | (Ok _, t') => t' = t /\ forallb (sellable db) items = true
  | (Raise e, t') =>
      t' = t
      /\ exists item,
           item ∈ items
           /\ sellable db item = false
           /\ (tracked db item = false
               /\ e = ValueError_not_found_or_not_tracked (SalesLogger.product_id item)
               \/ tracked db item = true
                  /\ short_of_stock db item = true
                  /\ e = ValueError_insufficient_stock (SalesLogger.product_id item))
  end.
Proof.
  induction items as [|item rest IH]; [split; reflexivity|].
  assert (Hrest :
    match SalesLogger.validate_items db rest t with
    | (Ok _, t') => t' = t /\ forallb (sellable db) rest = true
    | (Raise e, t') =>
        t' = t
        /\ exists item0,
             item0 ∈ item :: rest
             /\ sellable db item0 = false
             /\ (tracked db item0 = false
                 /\ e = ValueError_not_found_or_not_tracked (SalesLogger.product_id item0)
                 \/ tracked db item0 = true
                    /\ short_of_stock db item0 = true
                    /\ e = ValueError_insufficient_stock (SalesLogger.product_id item0))
    end).
  { destruct (SalesLogger.validate_items db rest t) as [[[]|e] t']; [exact IH|].
    destruct IH as (-> & item0 & Hin & Hrest). split; [reflexivity|].
    exists item0. split; [right; exact Hin|exact Hrest]. }
  clear IH.
  assert (Hhead : forall e,
    sellable db item = false ->
    tracked db item = false
    /\ e = ValueError_not_found_or_not_tracked (SalesLogger.product_id item)
    \/ tracked db item = true /\ short_of_stock db item = true
       /\ e = ValueError_insufficient_stock (SalesLogger.product_id item) ->
    (fun t' : Txn => t' = t
      /\ exists item0,
           item0 ∈ item :: rest
           /\ sellable db item0 = false
           /\ (tracked db item0 = false
               /\ e = ValueError_not_found_or_not_tracked (SalesLogger.product_id item0)
               \/ tracked db item0 = true
                  /\ short_of_stock db item0 = true
                  /\ e = ValueError_insufficient_stock (SalesLogger.product_id item0))) t).
  { intros e Hs He. split; [reflexivity|]. exists item. split; [left|]. split; assumption. }
  cbn [SalesLogger.validate_items forallb].
  destruct (products db !! SalesLogger.product_id item) as [product|] eqn:Hp.
  2:{ apply Hhead; [|left; split; [|reflexivity]]; unfold sellable, tracked; rewrite Hp;
        reflexivity. }
  destruct (Product.is_tracked product) eqn:Htr.
  2:{ apply Hhead; [|left; split; [|reflexivity]]; unfold sellable, tracked; rewrite Hp, Htr;
        reflexivity. }
  assert (Htracked : tracked db item = true) by (unfold tracked; rewrite Hp; exact Htr).
  destruct (SalesLogger.levels_of (SalesLogger.product_id item) db) as [|first others] eqn:Hl.
  - assert (sellable db item = true) as Hs.
    { unfold sellable, short_of_stock. rewrite Htracked, Hl. reflexivity. }
    rewrite Hs. cbn [andb].
    destruct (SalesLogger.validate_items db rest t) as [[[]|e] t']; exact Hrest.
  - destruct (InventoryLevel.available_quantity first <? SalesLogger.quantity item) eqn:Hlt.
    + assert (short_of_stock db item = true) as Hsh
        by (unfold short_of_stock; rewrite Hl; exact Hlt).
      apply Hhead; [unfold sellable; rewrite Htracked, Hsh; reflexivity|].
      right. repeat split; assumption.
    + assert (sellable db item = true) as Hs.
      { unfold sellable, short_of_stock. rewrite Htracked, Hl, Hlt. reflexivity. }
      rewrite Hs. cbn [andb].
      destruct (SalesLogger.validate_items db rest t) as [[[]|e] t']; exact Hrest.
Qed.


Lemma record_sale_block_unfold now tid sd w :
  get_db_context (SalesLogger.record_sale_block now tid sd) w =
  match PaymentMethod_of_value (SalesLogger.payment_method sd) with
  | Raise e => (Raise e, w)
  | Ok payment =>
      let id := next_id (sales (committed w)) in
      match SalesLogger.sell_items now id (SalesLogger.items sd) []
              (mkTxn w (set_sales (<[id := SalesLogger.sale_of now tid sd payment]>
                                     (sales (committed w))) (committed w))) with
      | (Raise e, t) => (Raise e, world t)
      | (Ok created, t) =>
          (Ok (SalesLogger.mkSaleResult tid id "completed" (SalesLogger.total_amount sd)
                 (Z.of_nat (length created))),
           mkWorld (session t)
             (cache_set (TransactionKey tid) (SaleIdEntry id) (cache (world t))))
      end
  end.
Proof.
  unfold get_db_context, SalesLogger.record_sale_block, SalesLogger._cache_transaction.
  unfold_M. cbn.
  destruct (PaymentMethod_of_value (SalesLogger.payment_method sd)) as [payment|e];
    [|destruct w; reflexivity].
  cbn zeta.
  destruct (SalesLogger.sell_items _ _ _ _ _) as [[created|e] t]; reflexivity.
Qed.


Lemma _validate_inventory_outcome items w :
  SalesLogger._validate_inventory items w
  = (fst (SalesLogger.validate_items (committed w) items (mkTxn w (committed w))), w).
Proof.
  unfold SalesLogger._validate_inventory, get_db_context. unfold_M. cbn [session].
  pose proof (validate_items_outcome (committed w) items (mkTxn w (committed w))) as H.
  destruct (SalesLogger.validate_items _ _ _) as [[[]|e] t']; cbn.
  - destruct H as [-> _]. reflexivity.
  - destruct H as [-> _]. reflexivity.
Qed.




#[global] Instance sales_newer_first_total : Total SalesLogger.newer_first.
Proof. intros x y. unfold SalesLogger.newer_first. lia. Qed.

#[global] Instance sales_newer_first_trans : Transitive SalesLogger.newer_first.
Proof. intros x y z. unfold SalesLogger.newer_first. lia. Qed.

Lemma get_recent_sales_unfold limit w :
  SalesLogger.get_recent_sales limit w =
  (if limit <? 0 then Raise (DatabaseError "LIMIT must not be negative")
   else Ok (take (Z.to_nat limit)
              (merge_sort SalesLogger.newer_first
                 (filter (fun r : Z * Sale.t => Sale.status (snd r) = "completed")
                         (map_to_list (sales (committed w)))))),
   w).
Proof.
  unfold SalesLogger.get_recent_sales, get_db_context. unfold_M. cbn.
  destruct (limit <? 0); destruct w; reflexivity.
Qed.

Lemma get_recent_sales_complete limit w id sale :
  Z.of_nat (size (sales (committed w))) <= limit ->
  sales (committed w) !! id = Some sale ->
  Sale.status sale = "completed" ->
  exists rows,
    SalesLogger.get_recent_sales limit w = (Ok rows, w) /\ (id, sale) ∈ rows.
Proof.
  intros Hsize Hlk Hst. rewrite get_recent_sales_unfold.
  destruct (Z.ltb_spec limit 0); [lia|].
  eexists. split; [reflexivity|].
  set (P := fun r : Z * Sale.t => Sale.status (snd r) = "completed").
  rewrite take_ge.
  - rewrite merge_sort_Permutation. apply list_elem_of_filter. split; [exact Hst|].
    apply elem_of_map_to_list, Hlk.
  - rewrite merge_sort_Permutation.
    pose proof (length_filter P (map_to_list (sales (committed w)))).
    rewrite length_map_to_list in *. lia.
Qed.

(** X14. [get_recent_sales] changes nothing.  With a negative limit the
    query raises; otherwise it returns at most [limit] rows, each a
    completed sale of the committed table, newest first, no sale twice,
    and every completed sale when the limit is at least the size of the
    table. *)
Theorem get_recent_sales_sound limit w :
  snd (SalesLogger.get_recent_sales limit w) = w
  /\ (limit < 0 -> exists e, fst (SalesLogger.get_recent_sales limit w) = Raise e)
  /\ (0 <= limit ->
      exists rows,
        fst (SalesLogger.get_recent_sales limit w) = Ok rows
        /\ (forall id sale, (id, sale) ∈ rows ->
              sales (committed w) !! id = Some sale /\ Sale.status sale = "completed")
        /\ Z.of_nat (length rows) <= limit
        /\ StronglySorted SalesLogger.newer_first rows
        /\ NoDup rows.*1
        /\ (Z.of_nat (size (sales (committed w))) <= limit ->
            forall id sale,
              sales (committed w) !! id = Some sale ->
              Sale.status sale = "completed" ->
              (id, sale) ∈ rows)).
Proof.
  rewrite get_recent_sales_unfold. cbn [fst snd].
  split; [reflexivity|].
  destruct (Z.ltb_spec limit 0) as [Hneg|Hpos].
  { split; [intros _; eexists; reflexivity|intros; lia]. }
  split; [intros; lia|]. intros _.
  set (P := fun r : Z * Sale.t => Sale.status (snd r) = "completed").
  set (table := map_to_list (sales (committed w))).
  eexists. split; [reflexivity|].
  assert (Hsub : take (Z.to_nat limit) (merge_sort SalesLogger.newer_first (filter P table))
                 `sublist_of` merge_sort SalesLogger.newer_first (filter P table))
    by apply sublist_take.
  split; [|split; [|split; [|split]]].
  - intros id sale Hin.
    apply subseteq_take in Hin. rewrite merge_sort_Permutation in Hin.
    apply list_elem_of_filter in Hin as [Hp Hin].
    apply elem_of_map_to_list in Hin. split; [exact Hin|exact Hp].
  - rewrite length_take. lia.
  - pose proof (StronglySorted_merge_sort SalesLogger.newer_first (filter P table)) as Hs.
    rewrite <- (take_drop (Z.to_nat limit)) in Hs.
    eapply StronglySorted_app_1_l, Hs.
  - eapply sublist_NoDup; [|apply fmap_sublist, Hsub].
    rewrite merge_sort_Permutation.
    eapply sublist_NoDup; [exact (NoDup_fst_map_to_list (sales (committed w)))|].
    apply fmap_sublist, sublist_filter.
  - intros Hsize id sale Hlk Hst.
    destruct (get_recent_sales_complete limit w id sale Hsize Hlk Hst) as (rows & Hrun & Hin).
    rewrite get_recent_sales_unfold in Hrun.
    destruct (limit <? 0); [discriminate|]. injection Hrun as <-. exact Hin.
Qed.

Lemma record_sale_ok_block now tid sd w res w' :
  SalesLogger.record_sale now tid sd w = (Ok res, w') ->
  get_db_context (SalesLogger.record_sale_block now tid sd) w = (Ok res, w').
Proof.
  unfold SalesLogger.record_sale.
  destruct (SalesLogger.items sd) as [|item rest]; [discriminate|].
  rewrite _validate_inventory_outcome.
  destruct (fst _) as [[]|e]; [|discriminate]. intros H. exact H.
Qed.

Lemma recorded_sale_stored now tid sd w res w' :
  SalesLogger.record_sale now tid sd w = (Ok res, w') ->
  exists payment,
    sales (committed w') !! SalesLogger.sale_id res
    = Some (SalesLogger.sale_of now tid sd payment)
    /\ sales (committed w) !! SalesLogger.sale_id res = None
    /\ size (sales (committed w')) = S (size (sales (committed w)))
    /\ (TransactionKey tid, SaleIdEntry (SalesLogger.sale_id res)) ∈ cache w'.
Proof.
  intros Hrun. apply record_sale_ok_block in Hrun.
  pose proof (record_sale_block_atomic now tid sd w) as Hat.
  rewrite Hrun in Hat.
  destruct Hat as (payment & rows & movements & Hpay & Hfresh & Hsales & _).
  exists payment. rewrite Hsales.
  split; [apply lookup_insert_eq|]. split; [exact Hfresh|].
  split; [apply map_size_insert_None; exact Hfresh|].
  rewrite record_sale_block_unfold, Hpay in Hrun. cbn zeta in Hrun.
  destruct (SalesLogger.sell_items _ _ _ _ _) as [[created|e] t]; [|discriminate].
  injection Hrun as <- <-. cbn. left.
Qed.

(** X15. A sale that [record_sale] has returned is listed: asked for more
    rows than there were sales before, [get_recent_sales] on the resulting
    world returns the sale under the id of the result, with the
    transaction id and total amount of the result, the cashier of the
    request and the time of the recording. *)
Theorem recorded_sale_is_listed now tid sd w res w' limit :
  SalesLogger.record_sale now tid sd w = (Ok res, w') ->
  Z.of_nat (size (sales (committed w))) < limit ->
  exists rows sale,
    SalesLogger.get_recent_sales limit w' = (Ok rows, w')
    /\ (SalesLogger.sale_id res, sale) ∈ rows
    /\ Sale.transaction_id sale = tid
    /\ Sale.transaction_id sale = SalesLogger.transaction_id res
    /\ Sale.total_amount sale = SalesLogger.result_total_amount res
    /\ Sale.cashier_id sale = SalesLogger.cashier_id sd
    /\ Sale.created_at sale = now.
Proof.
  intros Hrun Hlimit.
  destruct (recorded_sale_stored _ _ _ _ _ _ Hrun) as (payment & Hlk & _ & Hsize & _).
  destruct (get_recent_sales_complete limit w' (SalesLogger.sale_id res)
              (SalesLogger.sale_of now tid sd payment)) as (rows & Hq & Hin);
    [lia|exact Hlk|reflexivity|].
  exists rows, (SalesLogger.sale_of now tid sd payment).
  split; [exact Hq|]. split; [exact Hin|].
  apply record_sale_ok_block in Hrun.
  rewrite record_sale_block_unfold in Hrun.
  destruct (PaymentMethod_of_value _); [|discriminate]. cbn zeta in Hrun.
  destruct (SalesLogger.sell_items _ _ _ _ _) as [[created|e] t]; [|discriminate].
  injection Hrun as <- _. repeat split.
Qed.

Lemma recorded_sale_is_listed_witness :
  exists res w',
    SalesLogger.record_sale 1000 "TXN-1"
      (sale_of_items [SalesLogger.mkItemData 1 6 3]) shop_world = (Ok res, w')
    /\ Z.of_nat (size (sales (committed shop_world))) < 50
    /\ exists rows sale,
         SalesLogger.get_recent_sales 50 w' = (Ok rows, w')
         /\ (SalesLogger.sale_id res, sale) ∈ rows
         /\ Sale.transaction_id sale = "TXN-1".
Proof.
  eexists _, _.
  assert (H50 : Z.of_nat (size (sales (committed shop_world))) < 50)
    by (vm_compute; reflexivity).
  split; [vm_compute; reflexivity|]. split; [exact H50|].
  destruct (recorded_sale_is_listed 1000 "TXN-1"
              (sale_of_items [SalesLogger.mkItemData 1 6 3]) shop_world _ _ 50
              eq_refl H50) as (rows & sale & Hq & Hin & Htid & _).
  exists rows, sale. split; [exact Hq|]. split; [exact Hin|exact Htid].
Defined.

(** X16. GET /transaction/{id} never finds a sale.  The handler looks the
    id up in the attribute [_transaction_cache] of the sales logger, which
    starts empty and which POST /checkout leaves as it is
    ([_cache_transaction] writes to the cache manager instead).  So the
    answer is 404 for every id and every database, also for the id of the
    sale the checkout has just returned, stored in the committed table and
    entered in the cache manager. *)
Theorem recorded_sale_is_not_found now tid sd w :
  let '(response, w', m) := Endpoints.record_sale Endpoints.sales_logger now tid sd w in
  m = Endpoints.sales_logger
  /\ (forall transaction_id db,
        Endpoints.get_transaction m transaction_id db = Endpoints.HTTPException 404)
  /\ (forall res,
        response = Endpoints.Response res ->
        (exists sale,
           sales (committed w') !! SalesLogger.sale_id res = Some sale
           /\ Sale.transaction_id sale = SalesLogger.transaction_id res)
        /\ (TransactionKey (SalesLogger.transaction_id res),
            SaleIdEntry (SalesLogger.sale_id res)) ∈ cache w'
        /\ Endpoints.get_transaction m (SalesLogger.transaction_id res) (committed w')
           = Endpoints.HTTPException 404).
Proof.
  unfold Endpoints.record_sale.
  destruct (SalesLogger.record_sale now tid sd w) as [[res|e] w'] eqn:Hrun.
  - split; [reflexivity|]. split; [reflexivity|].
    intros res' [= <-].
    destruct (recorded_sale_stored _ _ _ _ _ _ Hrun) as (payment & Hlk & _ & _ & Hcache).
    assert (SalesLogger.transaction_id res = tid) as Htid.
    { apply record_sale_ok_block in Hrun.
      pose proof (record_sale_block_atomic now tid sd w) as Hat. rewrite Hrun in Hat.
      destruct Hat as (? & ? & ? & Hat). apply Hat. }
    rewrite Htid.
    split; [eexists; split; [exact Hlk|reflexivity]|].
    split; [exact Hcache|reflexivity].
  - split; [reflexivity|]. split; [reflexivity|]. intros res [=].
Qed.

(** ** Inventory queries and the inventory endpoint *)

Lemma length_omap_le {A B} (f : A -> option B) (l : list A) :
  (length (omap f l) <= length l)%nat.
Proof. induction l as [|x l IH]; cbn; [lia|]. destruct (f x); cbn; lia. Qed.

Lemma elem_of_product_levels db id product level :
  (id, product, level) ∈ InventoryMonitor.product_levels db
  <-> level ∈ inventory_levels db
      /\ id = InventoryLevel.product_id level
      /\ products db !! InventoryLevel.product_id level = Some product.
Proof.
  unfold InventoryMonitor.product_levels. rewrite list_elem_of_omap. split.
  - intros (l & Hin & Hl).
    destruct (products db !! InventoryLevel.product_id l) as [p|] eqn:Hp; [|discriminate].
    cbn in Hl. injection Hl as <- <- <-. repeat split; assumption.
  - intros (Hin & -> & Hp). exists level. split; [exact Hin|]. rewrite Hp. reflexivity.
Qed.

Lemma get_low_stock_products_unfold threshold w :
  InventoryMonitor.get_low_stock_products threshold w =
  (Ok (map (fun r : Z * Product.t * InventoryLevel.t => low_stock_row (snd (fst r)) (snd r))
         (filter (fun r : Z * Product.t * InventoryLevel.t =>
                    InventoryLevel.available_quantity (snd r)
                    <= InventoryMonitor.low_stock_bound threshold (snd (fst r))
                    /\ Product.is_tracked (snd (fst r)) = true)
                 (InventoryMonitor.product_levels (committed w)))), w).
Proof.
  unfold InventoryMonitor.get_low_stock_products, get_db_context. unfold_M. cbn.
  destruct w as [db c]. cbn. f_equal. f_equal.
  set (l := filter _ _).
  assert (Hids : Forall (fun r : Z * Product.t * InventoryLevel.t =>
                           fst (fst r) = InventoryLevel.product_id (snd r)) l).
  { apply Forall_forall. intros [[id p] lv] Hin. subst l.
    apply list_elem_of_filter in Hin as [_ Hin].
    apply elem_of_product_levels in Hin as (_ & -> & _). reflexivity. }
  induction Hids as [|[[id p] lv] rest Hid _ IH]; [reflexivity|].
  cbn in *. subst id. f_equal. exact IH.
Qed.

(** X17. [get_low_stock_products] changes nothing and returns one
    dictionary for exactly those inventory rows whose product is in the
    catalogue and tracked and whose available quantity is at most the
    bound: the threshold when one is given and not 0, the minimum stock
    level of the product otherwise.  The field [current_quantity] of a
    dictionary is the available quantity of the row, there are at most as
    many dictionaries as inventory rows, and a threshold of 0 is served as
    no threshold. *)
Theorem get_low_stock_products_sound threshold w :
  exists rows,
    InventoryMonitor.get_low_stock_products threshold w = (Ok rows, w)
    /\ (forall row,
          row ∈ rows <->
          exists product level,
            level ∈ inventory_levels (committed w)
            /\ products (committed w) !! InventoryLevel.product_id level = Some product
            /\ Product.is_tracked product = true
            /\ InventoryLevel.available_quantity level
               <= match threshold with
                  | Some t => if decide (t = 0) then Product.min_stock_level product else t
                  | None => Product.min_stock_level product
                  end
            /\ row = low_stock_row product level)
    /\ (forall row, row ∈ rows ->
          InventoryMonitor.LowStock.current_quantity row
          = snd (InventoryMonitor.LowStock.days_of_stock row))
    /\ (length rows <= length (inventory_levels (committed w)))%nat
    /\ InventoryMonitor.get_low_stock_products (Some 0) w
       = InventoryMonitor.get_low_stock_products None w.
Proof.
  rewrite !get_low_stock_products_unfold.
  eexists. split; [reflexivity|].
  assert (Hbound : forall product,
            InventoryMonitor.low_stock_bound threshold product
            = match threshold with
              | Some t => if decide (t = 0) then Product.min_stock_level product else t
              | None => Product.min_stock_level product
              end).
  { intros product. unfold InventoryMonitor.low_stock_bound.
    destruct threshold as [t|]; [|reflexivity].
    destruct (Z.eqb_spec t 0), (decide (t = 0)); congruence. }
  split; [|split; [|split]].
  - intros row. rewrite list_elem_of_fmap. split.
    + intros ([[id p] lv] & -> & Hin). cbn.
      apply list_elem_of_filter in Hin as [[Hle Htr] Hin]. cbn in Hle, Htr.
      apply elem_of_product_levels in Hin as (Hin & _ & Hp).
      exists p, lv. rewrite <- Hbound. repeat split; assumption.
    + intros (p & lv & Hin & Hp & Htr & Hle & ->).
      exists (InventoryLevel.product_id lv, p, lv). split; [reflexivity|].
      apply list_elem_of_filter. split.
      * cbn. rewrite Hbound. split; assumption.
      * apply elem_of_product_levels. repeat split; assumption.
  - intros row Hin. apply list_elem_of_fmap in Hin as (r & -> & _). reflexivity.
  - rewrite length_map.
    etransitivity; [apply length_filter|].
    apply length_omap_le.
  - f_equal.
Qed.

#[global] Instance movements_newer_first_total : Total InventoryMonitor.newer_first.
Proof. intros x y. unfold InventoryMonitor.newer_first. lia. Qed.

#[global] Instance movements_newer_first_trans : Transitive InventoryMonitor.newer_first.
Proof. intros x y z. unfold InventoryMonitor.newer_first. lia. Qed.

Lemma get_stock_movements_unfold product_id limit w :
  InventoryMonitor.get_stock_movements product_id limit w =
  (if limit <? 0 then Raise (DatabaseError "LIMIT must not be negative")
   else Ok (take (Z.to_nat limit)
              (merge_sort InventoryMonitor.newer_first
                 (movement_rows product_id (committed w)))), w).
Proof.
  unfold InventoryMonitor.get_stock_movements, get_db_context, movement_rows. unfold_M. cbn.
  destruct (limit <? 0); destruct w; reflexivity.
Qed.

Lemma elem_of_movement_rows product_id db m :
  m ∈ movement_rows product_id db
  <-> m ∈ stock_movements db
      /\ is_Some (products db !! StockMovement.product_id m)
      /\ (forall p, product_id = Some p -> p <> 0 -> StockMovement.product_id m = p).
Proof.
  unfold movement_rows.
  destruct product_id as [p|]; [destruct (Z.eqb_spec p 0)|];
    rewrite ?list_elem_of_filter; split.
  - intros (Hk & Hin). repeat split; try assumption. intros q [= <-] Hq. contradiction.
  - intros (Hin & Hk & _). split; assumption.
  - intros (Hp & Hk & Hin). repeat split; try assumption. intros q [= <-] _. exact Hp.
  - intros (Hin & Hk & Hp). repeat split; try assumption. apply (Hp p); [reflexivity|assumption].
  - intros (Hk & Hin). repeat split; try assumption. intros q [=].
  - intros (Hin & Hk & _). split; assumption.
Qed.

(** X18. GET /movements answers 500 exactly on a negative limit.  Otherwise
    the count is the number of movements returned and at most the limit
    and 500; every movement returned is in the committed table, belongs
    to a product of the catalogue and, when a product id other than 0 is
    given, to that product; the movements come newest first, and all
    such movements are returned when the table is no longer than the
    limit.  A product id of 0 is served as no product id. *)
Theorem get_stock_movements_sound product_id limit w :
  match Endpoints.get_stock_movements product_id limit w with
  | Endpoints.HTTPException status_code => status_code = 500 /\ limit < 0
  | Endpoints.Response (movements, count) =>
      0 <= limit
      /\ count = Z.of_nat (length movements)
      /\ count <= Z.min limit 500
      /\ (forall m, m ∈ movements ->
            m ∈ stock_movements (committed w)
            /\ is_Some (products (committed w) !! StockMovement.product_id m)
            /\ (forall p, product_id = Some p -> p <> 0 -> StockMovement.product_id m = p))
      /\ StronglySorted InventoryMonitor.newer_first movements
      /\ (Z.of_nat (length (stock_movements (committed w))) <= Z.min limit 500 ->
          forall m,
            m ∈ stock_movements (committed w) ->
            is_Some (products (committed w) !! StockMovement.product_id m) ->
            (forall p, product_id = Some p -> p <> 0 -> StockMovement.product_id m = p) ->
            m ∈ movements)
  end
  /\ Endpoints.get_stock_movements (Some 0) limit w
     = Endpoints.get_stock_movements None limit w.
Proof.
  unfold Endpoints.get_stock_movements. rewrite !get_stock_movements_unfold.
  split; [|reflexivity].
  set (lim := if 500 <? limit then 500 else limit).
  assert (Hlim : lim = Z.min limit 500)
    by (subst lim; destruct (Z.ltb_spec 500 limit); lia).
  destruct (Z.ltb_spec lim 0) as [Hneg|Hpos]; [split; [reflexivity|lia]|].
  set (rows := movement_rows product_id (committed w)).
  split; [lia|]. split; [reflexivity|]. split; [rewrite length_take; lia|].
  split; [|split].
  - intros m Hin. apply subseteq_take in Hin. rewrite merge_sort_Permutation in Hin.
    apply elem_of_movement_rows in Hin. exact Hin.
  - pose proof (StronglySorted_merge_sort InventoryMonitor.newer_first rows) as Hs.
    rewrite <- (take_drop (Z.to_nat lim)) in Hs.
    eapply StronglySorted_app_1_l, Hs.
  - intros Hsize m Hin Hk Hp. rewrite take_ge.
    + rewrite merge_sort_Permutation. apply elem_of_movement_rows. repeat split; assumption.
    + rewrite merge_sort_Permutation.
      assert (length rows <= length (stock_movements (committed w)))%nat; [|lia].
      subst rows. unfold movement_rows.
      destruct product_id as [p|]; [destruct (p =? 0)|];
        repeat (etransitivity; [apply length_filter|]); reflexivity.
Qed.




(** ** The alert endpoint *)

Lemma AlertType_of_value_spec v t :
  Endpoints.AlertType_of_value v = Some t <-> v = AlertDispatcher.AlertType_value t.
Proof.
  split.
  - unfold Endpoints.AlertType_of_value.
    repeat match goal with
           | |- context [String.eqb v ?s] =>
               destruct (String.eqb_spec v s) as [->|_]; [intros [= <-]; reflexivity|]
           end.
    discriminate.
  - intros ->. destruct t; reflexivity.
Qed.

Lemma AlertSeverity_of_value_spec v s :
  Endpoints.AlertSeverity_of_value v = Some s <-> v = AlertDispatcher.AlertSeverity_value s.
Proof.
  split.
  - unfold Endpoints.AlertSeverity_of_value.
    repeat match goal with
           | |- context [String.eqb v ?s] =>
               destruct (String.eqb_spec v s) as [->|_]; [intros [= <-]; reflexivity|]
           end.
    discriminate.
  - intros ->. destruct s; reflexivity.
Qed.

Lemma parse_filter_spec {E} (of_value : string -> option E) (value : E -> string) v :
  (forall s e, of_value s = Some e <-> s = value e) ->
  match Endpoints.parse_filter of_value v with
  | Endpoints.Response e => value <$> e = given_filter v
  | Endpoints.HTTPException status_code =>
      status_code = 400 /\ exists s, given_filter v = Some s /\ forall e, s <> value e
  end.
Proof.
  intros Hspec. unfold Endpoints.parse_filter, given_filter.
  destruct v as [s|]; [|reflexivity].
  destruct (String.eqb s ""); [reflexivity|].
  destruct (of_value s) as [e|] eqn:He.
  - apply Hspec in He. cbn. congruence.
  - split; [reflexivity|]. exists s. split; [reflexivity|].
    intros e ->. specialize (Hspec (value e) e). destruct Hspec as [_ Hspec].
    rewrite Hspec in He by reflexivity. discriminate.
Qed.

(** X20. GET /active reads a filter that is absent or the empty string as
    no filter.  It answers 400 exactly when a filter that is given is not
    the value of a member of its enum (the alert type is looked at
    first); otherwise the count is the number of alerts, the alerts are
    those of the service for the parsed filters, and each of them is an
    ACTIVE alert of the committed table whose type and severity have the
    values asked for. *)
Theorem get_active_alerts_filters alert_type severity limit w :
  match Endpoints.get_active_alerts alert_type severity limit w with
  | Endpoints.HTTPException status_code =>
      status_code = 400
      /\ ((exists s, given_filter alert_type = Some s
                     /\ forall t, s <> AlertDispatcher.AlertType_value t)
          \/ (exists s, given_filter severity = Some s
                        /\ forall v, s <> AlertDispatcher.AlertSeverity_value v))
  | Endpoints.Response (rows, count) =>
      count = Z.of_nat (length rows)
      /\ (exists t v,
            AlertDispatcher.AlertType_value <$> t = given_filter alert_type
            /\ AlertDispatcher.AlertSeverity_value <$> v = given_filter severity
            /\ rows = AlertDispatcher.get_active_alerts t v limit w)
      /\ forall id a, (id, a) ∈ rows ->
           alerts (committed w) !! id = Some a
           /\ Alert.status a = ACTIVE
           /\ (forall s, given_filter alert_type = Some s ->
                 AlertDispatcher.AlertType_value (Alert.alert_type a) = s)
           /\ (forall s, given_filter severity = Some s ->
                 AlertDispatcher.AlertSeverity_value (Alert.severity a) = s)
  end.
Proof.
  unfold Endpoints.get_active_alerts.
  pose proof (parse_filter_spec Endpoints.AlertType_of_value AlertDispatcher.AlertType_value
                alert_type AlertType_of_value_spec) as Ht.
  pose proof (parse_filter_spec Endpoints.AlertSeverity_of_value
                AlertDispatcher.AlertSeverity_value severity AlertSeverity_of_value_spec)
    as Hv.
  destruct (Endpoints.parse_filter Endpoints.AlertType_of_value alert_type) as [t|c].
  2:{ destruct Ht as (-> & Hbad). split; [reflexivity|]. left. exact Hbad. }
  destruct (Endpoints.parse_filter Endpoints.AlertSeverity_of_value severity) as [v|c].
  2:{ destruct Hv as (-> & Hbad). split; [reflexivity|]. right. exact Hbad. }
  split; [reflexivity|]. split; [exists t, v; repeat split; assumption|].
  intros id a Hin.
  rewrite get_active_alerts_unfold in Hin.
  destruct (limit <? 0); [inversion Hin|].
  apply subseteq_take in Hin. rewrite merge_sort_Permutation in Hin.
  apply list_elem_of_filter in Hin as [Hp Hin].
  apply elem_of_map_to_list in Hin. split; [exact Hin|].
  apply active_filter_spec in Hp as (Hs & Hty & Hsev). cbn [snd] in Hs, Hty, Hsev.
  split; [exact Hs|]. split.
  - intros s Hgiven. rewrite Hgiven in Ht. destruct t as [t|]; [|discriminate].
    injection Ht as <-. rewrite (Hty t eq_refl). reflexivity.
  - intros s Hgiven. rewrite Hgiven in Hv. destruct v as [v|]; [|discriminate].
    injection Hv as <-. rewrite (Hsev v eq_refl). reflexivity.
Qed.

(** ** Training data and forecasts *)

Lemma add_sale_keys k sale acc :
  (RushPredictor.add_sale k sale acc).*1
  = if decide (k ∈ acc.*1) then acc.*1 else acc.*1 ++ [k].
Proof.
  induction acc as [|[k' [[amount count] n]] rest IH]; cbn.
  - rewrite decide_False by (intros H; inversion H). reflexivity.
  - destruct (Z.eqb_spec k' k) as [->|Hne]; cbn.
    + rewrite decide_True by left. reflexivity.
    + rewrite IH. destruct (decide (k ∈ rest.*1)) as [Hin|Hni].
      * rewrite decide_True by (right; exact Hin). reflexivity.
      * rewrite decide_False; [reflexivity|].
        intros [?|?]%elem_of_cons; [congruence|contradiction].
Qed.

Lemma add_sale_counts k sale acc :
  foldr Z.add 0 (transaction_count <$> RushPredictor.add_sale k sale acc)
  = foldr Z.add 0 (transaction_count <$> acc) + 1
  /\ (Forall (fun kv => 1 <= transaction_count kv) acc ->
      Forall (fun kv => 1 <= transaction_count kv) (RushPredictor.add_sale k sale acc)).
Proof.
  induction acc as [|[k' [[amount count] n]] rest [IHs IHf]]; cbn.
  - split; [reflexivity|]. intros _. constructor; [|constructor].
    unfold transaction_count. cbn. lia.
  - destruct (Z.eqb_spec k' k) as [->|Hne]; cbn.
    + split.
      * change (count + 1 + foldr Z.add 0 (transaction_count <$> rest)
                = count + foldr Z.add 0 (transaction_count <$> rest) + 1). lia.
      * intros [Hc Hrest]%Forall_cons. constructor; [|exact Hrest].
        change (1 <= count + 1). change (1 <= count) in Hc. lia.
    + split.
      * change (count + foldr Z.add 0
                          (transaction_count <$> RushPredictor.add_sale k sale rest)
                = count + foldr Z.add 0 (transaction_count <$> rest) + 1).
        rewrite IHs. lia.
      * intros [Hc Hrest]%Forall_cons. constructor; [exact Hc|exact (IHf Hrest)].
Qed.

Lemma hourly_sales_invariant sales_data : forall acc,
  NoDup acc.*1 ->
  Forall (fun kv => 1 <= transaction_count kv) acc ->
  let result :=
    foldl (fun acc sale =>
             RushPredictor.add_sale (RushPredictor.hour_floor (RushPredictor.created_at sale))
               sale acc)
          acc sales_data in
  NoDup result.*1
  /\ Forall (fun kv => 1 <= transaction_count kv) result
  /\ foldr Z.add 0 (transaction_count <$> result)
     = foldr Z.add 0 (transaction_count <$> acc) + Z.of_nat (length sales_data)
  /\ (forall k, k ∈ result.*1 <->
        k ∈ acc.*1
        \/ exists sale, sale ∈ sales_data
                        /\ RushPredictor.hour_floor (RushPredictor.created_at sale) = k).
Proof.
  induction sales_data as [|sale rest IH]; intros acc Hnd Hall; cbn zeta.
  - cbn. split; [exact Hnd|]. split; [exact Hall|]. split; [lia|].
    intros k. split; [intros H; left; exact H|].
    intros [H|(s & Hs & _)]; [exact H|inversion Hs].
  - cbn [foldl].
    set (k0 := RushPredictor.hour_floor (RushPredictor.created_at sale)).
    pose proof (add_sale_keys k0 sale acc) as Hkeys.
    pose proof (add_sale_counts k0 sale acc) as [Hsum Hforall].
    destruct (IH (RushPredictor.add_sale k0 sale acc)) as (H1 & H2 & H3 & H4).
    { rewrite Hkeys. destruct (decide (k0 ∈ acc.*1)); [exact Hnd|].
      apply NoDup_app. split; [exact Hnd|]. split.
      - intros x Hx [->|Hin]%elem_of_cons; [contradiction|inversion Hin].
      - apply NoDup_singleton. }
    { exact (Hforall Hall). }
    split; [exact H1|]. split; [exact H2|]. split.
    + rewrite H3, Hsum. cbn [length]. lia.
    + intros k. rewrite H4, Hkeys. split.
      * intros [Hin|(s & Hs & Hk)].
        -- destruct (decide (k0 ∈ acc.*1)); [left; exact Hin|].
           apply elem_of_app in Hin as [Hin|Hin]; [left; exact Hin|].
           apply list_elem_of_singleton in Hin. right. exists sale. split; [left|].
           subst k. reflexivity.
        -- right. exists s. split; [right; exact Hs|exact Hk].
      * intros [Hin|(s & Hs & Hk)].
        -- left. destruct (decide (k0 ∈ acc.*1)); [exact Hin|].
           apply elem_of_app. left. exact Hin.
        -- apply elem_of_cons in Hs as [->|Hs].
           ++ left. fold k0 in Hk. subst k.
              destruct (decide (k0 ∈ acc.*1)); [assumption|].
              apply elem_of_app. right. left.
           ++ right. exists s. split; assumption.
Qed.

Lemma feature_vector_row kv :
  1 <= transaction_count kv ->
  training_row (RushPredictor.feature_vector (fst kv) (snd kv))
               (inject_Z (transaction_count kv)).
Proof.
  destruct kv as [hour [[total count] n]]. unfold transaction_count. cbn.
  intros Hc. eexists _, _, _, _, _, _, _, _.
  split; [reflexivity|]. split; [reflexivity|]. split; [exact Hc|].
  split; [apply Z.mod_pos_bound; lia|]. split; [apply Z.mod_pos_bound; lia|].
  split; reflexivity.
Qed.

(** X21. [_prepare_training_data] returns as many targets as feature
    vectors, one for each distinct hour in which there was a sale, so at
    most as many as sales and at least one when there is a sale.  A
    feature vector has eight entries: the hour of the day in 0..23, the
    day of the week in 0..6, the weekend and business-hour flags
    computed from them, and the sums of the hour; its sixth entry, the
    transaction count, is the target, which is at least 1.  The targets
    add up to the number of sales. *)
Theorem prepare_training_data_shape sales_data :
  let '(features, targets) := RushPredictor._prepare_training_data sales_data in
  Forall2 training_row features targets
  /\ (length features <= length sales_data)%nat
  /\ (sales_data <> [] -> features <> [])
  /\ (exists counts,
        targets = inject_Z <$> counts
        /\ foldr Z.add 0 counts = Z.of_nat (length sales_data))
  /\ (exists hours,
        NoDup hours
        /\ length hours = length features
        /\ forall hour,
             hour ∈ hours <->
             exists sale, sale ∈ sales_data
                          /\ RushPredictor.hour_floor (RushPredictor.created_at sale) = hour).
Proof.
  unfold RushPredictor._prepare_training_data. fold (hourly_sales sales_data).
  destruct (hourly_sales_invariant sales_data [] (NoDup_nil_2) (Forall_nil_2 _))
    as (Hnd & Hall & Hsum & Hkeys).
  fold (hourly_sales sales_data) in Hnd, Hall, Hsum, Hkeys.
  cbn in Hsum.
  assert (Hlen : (length (hourly_sales sales_data) <= length sales_data)%nat).
  { assert (Z.of_nat (length (hourly_sales sales_data))
            <= foldr Z.add 0 (transaction_count <$> hourly_sales sales_data)); [|lia].
    clear Hsum Hnd Hkeys. induction Hall as [|kv l Hc _ IH]; cbn; [lia|].
    cbn in IH. lia. }
  split; [|split; [|split; [|split]]].
  - clear Hsum Hnd Hkeys Hlen. induction Hall as [|kv l Hc _ IH]; cbn; constructor.
    + apply (feature_vector_row kv Hc).
    + exact IH.
  - rewrite length_map. exact Hlen.
  - intros Hne Hnil. apply (f_equal length) in Hnil. rewrite length_map in Hnil. cbn in Hnil.
    destruct sales_data as [|s rest]; [contradiction|].
    assert (foldr Z.add 0 (transaction_count <$> hourly_sales (s :: rest)) = 0).
    { destruct (hourly_sales (s :: rest)); [reflexivity|discriminate]. }
    cbn [length] in Hsum. lia.
  - exists (transaction_count <$> hourly_sales sales_data). split; [|exact Hsum].
    rewrite <- list_fmap_compose. reflexivity.
  - exists (hourly_sales sales_data).*1. split; [exact Hnd|].
    split; [rewrite length_map, length_fmap; reflexivity|].
    intros hour. rewrite Hkeys. split.
    + intros [H|H]; [inversion H|exact H].
    + intros H. right. exact H.
Qed.

Lemma _get_historical_sales_data_outcome now w :
  match RushPredictor._get_historical_sales_data now w with
  | (Ok rows, w') =>
      w' = w
      /\ length rows = length (recent_sales now (committed w))
      /\ datetime_min <= now - 90 * 86400 <= datetime_max
  | (Raise e, w') =>
      w' = w /\ ~ (datetime_min <= now - 90 * 86400 <= datetime_max)
  end.
Proof.
  unfold RushPredictor._get_historical_sales_data, get_db_context, timedelta_days, datetime_sub.
  unfold_M. cbn.
  change (Z.abs 90 <=? 999999999) with true. cbn iota beta.
  destruct (Z.ltb_spec (now - 90 * 86400) datetime_min) as [H1|H1]; cbn.
  { split; [destruct w; reflexivity|lia]. }
  destruct (Z.ltb_spec datetime_max (now - 90 * 86400)) as [H2|H2]; cbn.
  { split; [destruct w; reflexivity|lia]. }
  split; [destruct w; reflexivity|]. split; [|lia].
  rewrite length_map, merge_sort_Permutation. unfold recent_sales. reflexivity.
Qed.

Section ForecasterFurther.

Context {Model Scaler Prediction : Type}.
Variable fit :
  list (list Q) -> list Q -> @RushPredictor.Predictor Model Scaler ->
  result unit * @RushPredictor.Predictor Model Scaler.
Variable predict_hour : Model -> option Scaler -> Z -> World -> result (option Prediction) * World.

(** X22. [_train_model] and the history: with fewer than 100 completed
    sales in the last 90 days the predictor is left as it is; with at
    least 100 (and a date 90 days back that exists) the training data is
    not empty, so the no-valid-features exit is not taken, and the
    predictor is the one the fitting step leaves. *)
Theorem train_model_needs_history now w self :
  ((length (recent_sales now (committed w)) < 100)%nat ->
   RushPredictor._train_model fit now w self = self)
  /\ ((100 <= length (recent_sales now (committed w)))%nat ->
      datetime_min <= now - 90 * 86400 <= datetime_max ->
      exists features targets,
        features <> []
        /\ Forall2 training_row features targets
        /\ RushPredictor._train_model fit now w self = snd (fit features targets self)).
Proof.
  unfold RushPredictor._train_model.
  pose proof (_get_historical_sales_data_outcome now w) as Hdata.
  destruct (RushPredictor._get_historical_sales_data now w) as [[rows|e] w'].
  - destruct Hdata as (_ & Hlen & _). rewrite <- Hlen. split.
    + intros Hlt. apply Nat.ltb_lt in Hlt. rewrite Hlt. reflexivity.
    + intros Hge _. apply Nat.ltb_ge in Hge. rewrite Hge.
      pose proof (prepare_training_data_shape rows) as Hshape.
      destruct (RushPredictor._prepare_training_data rows) as [features targets].
      destruct Hshape as (Hrows & _ & Hne & _).
      assert (features <> []) as Hfeat.
      { apply Hne. intros ->. apply Nat.ltb_ge in Hge. cbn in Hge. lia. }
      exists features, targets. split; [exact Hfeat|]. split; [exact Hrows|].
      destruct features; [contradiction|]. reflexivity.
  - destruct Hdata as (_ & Hbad). split; [reflexivity|]. intros _ Hok. contradiction.
Qed.

Lemma predict_loop_length model sc times : forall w,
  match RushPredictor.predict_loop predict_hour model sc times w with
  | (Ok predictions, _) => (length predictions <= length times)%nat
  | (Raise _, _) => True
  end.
Proof.
  induction times as [|time rest IH]; intros w; cbn; [lia|].
  destruct (predict_hour model sc time w) as [[p|e] w1]; [|exact I].
  specialize (IH w1).
  destruct (RushPredictor.predict_loop predict_hour model sc rest w1) as [[ps|e] w2];
    [|exact I].
  rewrite length_app. destruct p; cbn; lia.
Qed.

(** X23. [predict_rush_hours] returns at most [hours_ahead] predictions,
    none and no change for a count that is not positive or a predictor
    without a model.  GET /rush-hours always answers with a body: the
    predictions for [min hours_ahead 168] hours, at most 168 of them,
    that number of hours and the model version. *)
Theorem predict_rush_hours_bounded self hours_ahead now w :
  Z.of_nat (length (fst (RushPredictor.predict_rush_hours predict_hour self hours_ahead now w)))
  <= Z.max 0 hours_ahead
  /\ (hours_ahead <= 0 ->
      RushPredictor.predict_rush_hours predict_hour self hours_ahead now w = ([], w))
  /\ (RushPredictor.rush_model self = None ->
      RushPredictor.predict_rush_hours predict_hour self hours_ahead now w = ([], w))
  /\ exists predictions w',
       Endpoints.get_rush_hour_predictions predict_hour self hours_ahead now w
       = (Endpoints.Response (predictions, Z.min hours_ahead 168,
                              RushPredictor.model_version self), w')
       /\ Z.of_nat (length predictions) <= 168
       /\ (predictions, w')
          = RushPredictor.predict_rush_hours predict_hour self (Z.min hours_ahead 168) now w.
Proof.
  assert (Hbound : forall h,
            Z.of_nat (length (fst (RushPredictor.predict_rush_hours predict_hour self h now w)))
            <= Z.max 0 h).
  { intros h. unfold RushPredictor.predict_rush_hours.
    destruct (RushPredictor.rush_model self) as [model|]; [|cbn; lia].
    pose proof (predict_loop_length model (RushPredictor.scaler self)
                  (map (fun i => now + i * 3600) (seqZ 0 h)) w) as Hlen.
    destruct (RushPredictor.predict_loop _ _ _ _ _) as [[ps|e] w1]; cbn; [|lia].
    rewrite length_map, length_seqZ in Hlen. lia. }
  split; [apply Hbound|]. split; [|split].
  - intros Hle. unfold RushPredictor.predict_rush_hours.
    destruct (RushPredictor.rush_model self) as [model|]; [|reflexivity].
    assert (seqZ 0 hours_ahead = []) as -> by (unfold seqZ; replace (Z.to_nat hours_ahead) with 0%nat by lia; reflexivity).
    reflexivity.
  - intros Hnone. unfold RushPredictor.predict_rush_hours. rewrite Hnone. reflexivity.
  - unfold Endpoints.get_rush_hour_predictions.
    assert ((if 168 <? hours_ahead then 168 else hours_ahead) = Z.min hours_ahead 168) as ->
      by (destruct (Z.ltb_spec 168 hours_ahead); lia).
    specialize (Hbound (Z.min hours_ahead 168)).
    destruct (RushPredictor.predict_rush_hours predict_hour self (Z.min hours_ahead 168) now w)
      as [predictions w'].
    exists predictions, w'. split; [reflexivity|]. split; [cbn in Hbound; lia|reflexivity].
Qed.

End ForecasterFurther.

Lemma train_model_needs_history_witness :
  (100 <= length (recent_sales 100000 (committed busy_world)))%nat
  /\ datetime_min <= 100000 - 90 * 86400 <= datetime_max
  /\ exists features targets,
       features <> []
       /\ RushPredictor._train_model (Model := unit) (Scaler := unit)
            (fun _ _ p => (Ok (), RushPredictor.mkPredictor (Some ()) (Some ()) "1.0"))
            100000 busy_world RushPredictor.init
          = snd ((fun (_ : list (list Q)) (_ : list Q) (p : @RushPredictor.Predictor unit unit) =>
                    (@Ok unit (), RushPredictor.mkPredictor (Some ()) (Some ()) "1.0"))
                   features targets RushPredictor.init).
Proof.
  assert (H1 : (100 <= length (recent_sales 100000 (committed busy_world)))%nat)
    by (apply Nat.leb_le; vm_compute; reflexivity).
  assert (H2 : datetime_min <= 100000 - 90 * 86400 <= datetime_max)
    by (unfold datetime_min, datetime_max; lia).
  split; [exact H1|]. split; [exact H2|].
  destruct (proj2 (train_model_needs_history
                     (fun _ _ p => (Ok (), RushPredictor.mkPredictor (Some ()) (Some ()) "1.0"))
                     100000 busy_world RushPredictor.init) H1 H2)
    as (features & targets & Hne & _ & Hrun).
  exists features, targets. split; [exact Hne|exact Hrun].
Defined.

(** ** Sales and the inventory *)

Lemma sell_items_keeps_inventory now sid items : forall created t,
  Forall unreserved (inventory_levels (session t)) ->
  ledger_agrees (session t) ->
  Forall unreserved
    (inventory_levels (session (snd (SalesLogger.sell_items now sid items created t))))
  /\ ledger_agrees (session (snd (SalesLogger.sell_items now sid items created t))).
Proof.
  induction items as [|item rest IH]; intros created t Hun Hled.
  - split; assumption.
  - cbn [SalesLogger.sell_items]. unfold_M. cbn.
    destruct (products (session t) !! SalesLogger.product_id item) as [product|] eqn:Hp;
      [|split; assumption].
    set (t1 := mkTxn (world t) (set_sale_items _ (session t))).
    destruct (update_stock_level_sale now sid (SalesLogger.product_id item)
                (SalesLogger.quantity item) t1 product Hp)
      as (res & t2 & m & Hrun & _).
    assert (Hun2 : Forall unreserved
                     (inventory_levels (session (snd
                        (update_stock_level now (SalesLogger.product_id item)
                           (- SalesLogger.quantity item) SALE (Some (pretty sid))
                           (Some "sale") None None "main" t1))))).
    { apply update_stock_level_rows; [unfold unreserved; cbn; lia| |exact Hun].
      intros level Hlevel. apply update_quantities_unreserved. exact Hlevel. }
    pose proof (update_stock_level_ledger now (SalesLogger.product_id item)
                  (- SalesLogger.quantity item) SALE (Some (pretty sid)) (Some "sale")
                  None None "main" t1 Hled) as Hled2.
    rewrite Hrun in Hun2, Hled2. cbn [snd] in Hun2, Hled2.
    rewrite Hrun. apply IH; assumption.
Qed.

Lemma unreserved_stored_quantity db p l :
  Forall unreserved (inventory_levels db) -> 0 <= stored_quantity p l db.
Proof.
  intros Hun. unfold stored_quantity, stored_level.
  destruct (list_find _ _) as [[i level]|] eqn:E; cbn; [|lia].
  apply list_find_Some in E as (Hi & _).
  rewrite Forall_forall in Hun.
  destruct (Hun level (list_elem_of_lookup_2 _ _ _ Hi)) as (_ & Hc & _). exact Hc.
Qed.

(** X24. [record_sale] keeps the inventory sound: if every committed
    inventory row is unreserved (nothing reserved, current quantity not
    negative, available quantity the clamped difference) and the ledger
    agrees with the rows, then the same holds after [record_sale],
    whatever its outcome; in particular no stored quantity is negative. *)
Theorem record_sale_keeps_inventory now tid sd w :
  Forall unreserved (inventory_levels (committed w)) ->
  ledger_agrees (committed w) ->
  let w' := snd (SalesLogger.record_sale now tid sd w) in
  Forall unreserved (inventory_levels (committed w'))
  /\ ledger_agrees (committed w')
  /\ (forall p l, 0 <= stored_quantity p l (committed w')).
Proof.
  intros Hun Hled. cbn zeta.
  assert (Forall unreserved
            (inventory_levels (committed (snd (SalesLogger.record_sale now tid sd w))))
          /\ ledger_agrees (committed (snd (SalesLogger.record_sale now tid sd w))))
    as [Hun' Hled'].
  2:{ split; [exact Hun'|]. split; [exact Hled'|].
      intros p l. apply unreserved_stored_quantity, Hun'. }
  unfold SalesLogger.record_sale.
  destruct (SalesLogger.items sd) as [|item rest] eqn:Hitems; [split; assumption|].
  rewrite _validate_inventory_outcome.
  destruct (fst _) as [[]|e]; [|split; assumption].
  rewrite record_sale_block_unfold.
  destruct (PaymentMethod_of_value (SalesLogger.payment_method sd)) as [payment|e];
    [|split; assumption].
  cbn zeta. rewrite Hitems.
  set (t0 := mkTxn w _).
  pose proof (sell_items_keeps_inventory now (next_id (sales (committed w))) (item :: rest)
                [] t0 Hun Hled) as [Hun2 Hled2].
  pose proof (sell_items_spec now (next_id (sales (committed w))) (item :: rest) [] t0)
    as Hspec.
  destruct (SalesLogger.sell_items _ _ _ _ t0) as [[created|e] t]; cbn [snd] in *.
  - split; assumption.
  - rewrite Hspec. split; assumption.
Qed.

Lemma record_sale_keeps_inventory_witness :
  Forall unreserved (inventory_levels (committed shop_world))
  /\ ledger_agrees (committed shop_world)
  /\ forall p l,
       0 <= stored_quantity p l
              (committed (snd (SalesLogger.record_sale 1000 "TXN-1"
                                 (sale_of_items [SalesLogger.mkItemData 1 6 3;
                                                 SalesLogger.mkItemData 1 6 3])
                                 shop_world))).
Proof.
  split; [exact shop_rows_unreserved|]. split; [exact shop_ledger_agrees|].
  exact (proj2 (proj2 (record_sale_keeps_inventory 1000 "TXN-1"
                         (sale_of_items [SalesLogger.mkItemData 1 6 3;
                                         SalesLogger.mkItemData 1 6 3])
                         shop_world shop_rows_unreserved shop_ledger_agrees))).
Defined.
